(** * The middleware pipeline of [middleware/core.py]

    A shallow embedding of the request admission pipeline: tenant
    resolution, authentication, rate limiting, idempotent replay, locale
    detection, audit logging and error normalisation, composed by
    [RequestProcessor.process_request].

    Conventions.
    - A Python [dict] with string keys is a [gmap string _]; a dict with
      a fixed set of optional keys is a record of [option] fields
      ([None] = key absent).
    - Clock readings ([time.time()], [datetime.now()]) are rationals, in
      seconds; every reading and every [uuid4()] draw is an input of the
      call that performs it (record [world]).
    - A Python call either returns or raises: [outcome]. *)

From Stdlib Require Import ZArith QArith Lqa Lia.
From stdpp Require Import gmap strings list fin_maps.

Local Open Scope string_scope.
Local Open Scope Z_scope.

(** ** Exceptions *)

(** An exception object: the name of its class, the names of the classes
    it inherits from (the rest of the MRO), its [args] and its [str()]. *)
Record exn := Exn {
  exn_type : string;
  exn_bases : list string;
  exn_args : list string;
  exn_str : string
}.

Definition isinstance (e : exn) (cls : string) : bool :=
  bool_decide (cls ∈ exn_type e :: exn_bases e).

(** [class MiddlewareException(Exception): pass] *)
Definition MiddlewareException (msg : string) : exn :=
  Exn "MiddlewareException" ["Exception"; "BaseException"; "object"] [msg] msg.

Definition AttributeError (msg : string) : exn :=
  Exn "AttributeError" ["Exception"; "BaseException"; "object"] [msg] msg.

(** The built-in classes the normaliser tests for, with their MRO. *)
Definition ValueError (msg : string) : exn :=
  Exn "ValueError" ["Exception"; "BaseException"; "object"] [msg] msg.

Definition PermissionError (msg : string) : exn :=
  Exn "PermissionError" ["OSError"; "Exception"; "BaseException"; "object"] [msg] msg.

Definition FileNotFoundError (msg : string) : exn :=
  Exn "FileNotFoundError" ["OSError"; "Exception"; "BaseException"; "object"] [msg] msg.

Inductive outcome (A : Type) : Type :=
| Returned (a : A)
| Raised (e : exn).
Arguments Returned {A} a.
Arguments Raised {A} e.

(** Python truthiness of an optional string ([None] and [''] are falsy). *)
Definition truthy (o : option string) : bool :=
  match o with
  | Some s => negb (String.eqb s "")
  | None => false
  end.

(** [a or b] on optional strings. *)
Definition py_or (a b : option string) : option string :=
  if truthy a then a else b.

(** [str(x)] inside an f-string, for a value that is a string or [None]. *)
Definition py_str (o : option string) : string := default "None" o.

(** ** GlobalErrorNormalizationMiddleware *)

Record normalized_error := NormalizedError {
  error_id : string;
  err_timestamp : Q;
  err_type : string;
  category : string;
  err_message : string;
  err_context : string;
  status_code : Z;
  details_args : list string;
  details_str : string
}.

(** The category and status code chosen by the [if]/[elif] chain. *)
Definition categorize (error : exn) : string * Z :=
  if isinstance error "MiddlewareException" then ("middleware_error", 400)
  else if isinstance error "ValueError" then ("validation_error", 400)
  else if isinstance error "PermissionError" then ("authorization_error", 403)
  else if isinstance error "FileNotFoundError" then ("resource_not_found", 404)
  else ("system_error", 500).

Definition normalize_error (uuid4 : string) (now : Q) (error : exn) (context : string)
  : normalized_error :=
  let error_type := exn_type error in
  let error_message := exn_str error in
  let '(error_category, code) := categorize error in
  {| error_id := uuid4;
     err_timestamp := now;
     err_type := error_type;
     category := error_category;
     err_message := error_message;
     err_context := context;
     status_code := code;
     details_args := exn_args error;
     details_str := exn_str error |}.

(** The category names the normaliser can produce. *)
Definition categories : list string :=
  ["middleware_error"; "validation_error"; "authorization_error";
   "resource_not_found"; "system_error"].

(** ** OrganizationTenantMiddleware *)

Definition _default_org_resolver (request_headers : gmap string string) : option string :=
  py_or (request_headers !! "X-Organization-ID") (request_headers !! "X-Tenant-ID").

(** [RequestProcessor] builds the middleware without a resolver, so
    [org_resolver_func] is the default one. *)
Definition resolve_organization (request_headers : gmap string string) : option string :=
  _default_org_resolver request_headers.

(** ** IdempotencyMiddleware *)

Section Idempotency.
Context {V : Type}.

Definition check_idempotency (idempotency_store : gmap string V)
    (idempotency_key : string) : option V :=
  idempotency_store !! idempotency_key.

Definition store_result (idempotency_store : gmap string V)
    (idempotency_key : string) (result : V) : gmap string V :=
  <[idempotency_key := result]> idempotency_store.
End Idempotency.

(** Comparisons of clock readings are decidable. *)
#[local] Instance Qlt_decision (x y : Q) : Decision (x < y)%Q.
Proof.
  refine (match Qlt_le_dec x y with left H => left H | right H => right _ end).
  apply Qle_not_lt, H.
Defined.

#[local] Instance Qle_decision (x y : Q) : Decision (x <= y)%Q.
Proof.
  refine (match Qlt_le_dec y x with left H => right _ | right H => left H end).
  apply Qlt_not_le, H.
Defined.

(** ** RateLimitingMiddleware *)

Record rate_limiter := RateLimiter {
  max_requests : Z;
  window_seconds : Z;
  request_counts : gmap string (Z * Q)
}.

Definition is_rate_limited (self : rate_limiter) (now : Q) (client_id : string)
  : bool * rate_limiter :=
  let window_start := (now - inject_Z (window_seconds self))%Q in
  (* clean up old entries *)
  let counts : gmap string (Z * Q) :=
    filter (λ kv : string * (Z * Q), (window_start < kv.2.2)%Q) (request_counts self) in
  let set c := RateLimiter (max_requests self) (window_seconds self) c in
  match counts !! client_id with
  | Some (count, timestamp) =>
      if decide (now - timestamp < inject_Z (window_seconds self))%Q then
        if decide (max_requests self ≤ count) then (true, set counts)
        else (false, set (<[client_id := (count + 1, now)]> counts))
      else (false, set (<[client_id := (1, now)]> counts))
  | None => (false, set (<[client_id := (1, now)]> counts))
  end.

(** The record kept for a client. *)
Definition bucket (rl : rate_limiter) (k : string) : option (Z * Q) :=
  request_counts rl !! k.

(** Successive admission checks of one client at the given clock readings. *)
Fixpoint admission_checks (self : rate_limiter) (client_id : string) (times : list Q)
  : list bool * rate_limiter :=
  match times with
  | [] => ([], self)
  | now :: rest =>
      let '(limited, self1) := is_rate_limited self now client_id in
      let '(outcomes, self2) := admission_checks self1 client_id rest in
      (limited :: outcomes, self2)
  end.

(** ** LocaleTimezoneMiddleware *)

Definition detect_locale (request_headers : gmap string string) : string :=
  default "en-US" (request_headers !! "Accept-Language").

Definition detect_timezone (request_headers : gmap string string) : string :=
  default "UTC" (request_headers !! "X-Timezone").

(** ** AuthenticationMiddleware *)

(** The decoded token: the two entries the pipeline reads and the
    remaining claims ([exp], [iat], [type], ...). *)
Record token_payload := TokenPayload {
  tp_user_id : option string;
  tp_roles : option (list string);
  tp_claims : gmap string string
}.

(** Truthiness of the payload dict: falsy exactly when it has no entry. *)
Definition payload_truthy (p : token_payload) : bool :=
  match tp_user_id p, tp_roles p with
  | None, None => negb (bool_decide (tp_claims p = ∅))
  | _, _ => true
  end.

(** The collaborator handed to the constructor. [validate_token] is its
    answer to a token; [validate_calls] lists the tokens it has been
    asked about, oldest first. *)
Record auth_service := AuthService {
  validate_token : string → outcome (option token_payload);
  validate_calls : list string
}.

Definition call_validate_token (svc : auth_service) (token : string)
  : outcome (option token_payload) * auth_service :=
  (validate_token svc token,
   AuthService (validate_token svc) (validate_calls svc ++ [token])%list).

Definition authenticate_request (svc : auth_service) (request_headers : gmap string string)
  : outcome (option token_payload) * auth_service :=
  let auth_header := default "" (request_headers !! "Authorization") in
  if String.eqb auth_header "" || negb (String.prefix "Bearer " auth_header) then
    (Returned None, svc)
  else
    let token := String.substring 7 (String.length auth_header - 7) auth_header in
    match call_validate_token svc token with
    | (Raised e, svc') => (Raised e, svc')
    | (Returned None, svc') => (Returned None, svc')
    | (Returned (Some token_payload), svc') =>
        if payload_truthy token_payload then (Returned (Some token_payload), svc')
        else (Returned None, svc')
    end.

(** ** Names imported from the [datetime] module

    [from datetime import datetime, timezone] binds [datetime] to the
    class, whose attributes are listed here. *)
Definition datetime_class_attributes : list string :=
  ["min"; "max"; "resolution"; "year"; "month"; "day"; "hour"; "minute"; "second";
   "microsecond"; "tzinfo"; "fold"; "today"; "now"; "utcnow"; "fromtimestamp";
   "utcfromtimestamp"; "fromordinal"; "combine"; "fromisoformat"; "fromisocalendar";
   "strptime"; "date"; "time"; "timetz"; "replace"; "astimezone"; "utcoffset"; "dst";
   "tzname"; "timetuple"; "utctimetuple"; "toordinal"; "timestamp"; "weekday";
   "isoweekday"; "isocalendar"; "isoformat"; "ctime"; "strftime"].

Definition datetime_getattr (name : string) : outcome unit :=
  if bool_decide (name ∈ datetime_class_attributes) then Returned ()
  else Raised (AttributeError
         ("type object 'datetime.datetime' has no attribute '" ++ name ++ "'")).

Section Pipeline.
(** The payload of a request is opaque to the pipeline; the only
    operation applied to it is [json.dumps], which raises on a value
    that is not serialisable. *)
Context {Body : Type}.
Variable json_dumps : Body → outcome string.

(** [raw_request.get('body', {})]: the default empty dict or the
    caller's payload. *)
Inductive body :=
| EmptyDict
| Payload (b : Body).

Definition dumps (b : body) : outcome string :=
  match b with
  | EmptyDict => Returned "{}"
  | Payload b => json_dumps b
  end.

(** *** AuditLoggingMiddleware *)

Record audit_entry := AuditEntry {
  ae_timestamp : Q;
  ae_correlation_id : option string;
  ae_user_id : option string;
  ae_org_id : option string;
  ae_action : option string;
  ae_endpoint : option string;
  ae_method : option string;
  ae_ip_address : option string;
  ae_user_agent : option string;
  ae_request_size : nat;
  ae_status_code : Z
}.

(** The [request_data] dict built by the two call sites. *)
Record request_data := RequestData {
  rd_correlation_id : option string;
  rd_endpoint : option string;
  rd_method : option string;
  rd_ip_address : option string;
  rd_user_agent : option string;
  rd_body : option body;
  rd_status_code : option Z
}.

Definition log_request (now : Q) (audit_log : list audit_entry)
    (rd : request_data) (user_id org_id action : option string)
  : outcome unit * list audit_entry :=
  match dumps (default EmptyDict (rd_body rd)) with
  | Raised e => (Raised e, audit_log)
  | Returned dumped =>
      let audit_entry :=
        {| ae_timestamp := now;
           ae_correlation_id := rd_correlation_id rd;
           ae_user_id := user_id;
           ae_org_id := org_id;
           ae_action := action;
           ae_endpoint := rd_endpoint rd;
           ae_method := rd_method rd;
           ae_ip_address := rd_ip_address rd;
           ae_user_agent := rd_user_agent rd;
           ae_request_size := String.length dumped;
           ae_status_code := default 200 (rd_status_code rd) |} in
      (Returned (), (audit_log ++ [audit_entry])%list)
  end.

(** [not x or y == x] for an optional filter argument. *)
Definition filter_matches (wanted field : option string) : bool :=
  negb (truthy wanted) || bool_decide (field = wanted).

Definition get_audit_trail (now : Q) (audit_log : list audit_entry)
    (user_id org_id : option string) (days_back : Z)
  : outcome (list audit_entry) :=
  (* [datetime.now(timezone.utc) - datetime.timedelta(days=days_back)] *)
  match datetime_getattr "timedelta" with
  | Raised e => Raised e
  | Returned _ =>
      let cutoff_date := (now - inject_Z (days_back * 86400))%Q in
      Returned
        (List.filter
           (λ log, bool_decide (cutoff_date <= ae_timestamp log)%Q
                   && filter_matches user_id (ae_user_id log)
                   && filter_matches org_id (ae_org_id log))
           audit_log)
  end.

(** *** RequestProcessor *)

Record raw_request := RawRequest {
  rq_headers : option (gmap string string);
  rq_body : option Body;
  rq_method : option string;
  rq_endpoint : option string;
  rq_ip_address : option string;
  rq_user_agent : option string
}.

Record request_context := RequestContext {
  rc_correlation_id : string;
  rc_headers : gmap string string;
  rc_body : body;
  rc_method : string;
  rc_endpoint : string;
  rc_ip_address : string;
  rc_user_agent : string
}.

(** [{**request_context, "user_id": ..., ..., "authenticated": True}] *)
Record enriched_context := EnrichedContext {
  ec_request : request_context;
  ec_user_id : option string;
  ec_org_id : option string;
  ec_roles : list string;
  ec_locale : string;
  ec_timezone : string;
  ec_authenticated : bool
}.

(** The three dicts [process_request] can return: the success shape,
    the failure shape, and a cached dict handed back as stored. *)
Inductive response :=
| SuccessShape (context : enriched_context) (message : string)
| FailureShape (error : normalized_error) (message : string)
| Cached (cached_result : enriched_context).

Record request_processor := RequestProcessor {
  auth_middleware : auth_service;
  rate_limit_middleware : rate_limiter;
  idempotency_middleware : gmap string enriched_context;
  audit_middleware : list audit_entry
}.

(** [RequestProcessor(auth_service, permission_service)] *)
Definition new_processor (svc : auth_service) : request_processor :=
  {| auth_middleware := svc;
     rate_limit_middleware := RateLimiter 100 3600 ∅;
     idempotency_middleware := ∅;
     audit_middleware := [] |}.

(** What one call reads from its environment. *)
Record world := World {
  w_uuid_correlation : string;  (* uuid4() of generate_correlation_id *)
  w_time : Q;                   (* time.time() of is_rate_limited *)
  w_now_audit : Q;              (* datetime.now() of log_request, success path *)
  w_uuid_error : string;        (* uuid4() of normalize_error *)
  w_now_error : Q;              (* datetime.now() of normalize_error *)
  w_now_audit_failure : Q       (* datetime.now() of log_request, handler *)
}.

(** The local variables the handler asks [locals()] about: the outer
    [option] says whether the name is bound when the exception is
    raised. *)
Record frame := Frame {
  l_correlation_id : option string;
  l_org_id : option (option string);
  l_auth_payload : option (option token_payload)
}.

Definition set_auth (self : request_processor) (svc : auth_service) :=
  RequestProcessor svc (rate_limit_middleware self)
    (idempotency_middleware self) (audit_middleware self).
Definition set_rate_limit (self : request_processor) (rl : rate_limiter) :=
  RequestProcessor (auth_middleware self) rl
    (idempotency_middleware self) (audit_middleware self).
Definition set_idempotency (self : request_processor)
    (store : gmap string enriched_context) :=
  RequestProcessor (auth_middleware self) (rate_limit_middleware self)
    store (audit_middleware self).
Definition set_audit (self : request_processor) (log : list audit_entry) :=
  RequestProcessor (auth_middleware self) (rate_limit_middleware self)
    (idempotency_middleware self) log.

Definition build_context (w : world) (raw : raw_request) : request_context :=
  let headers := default ∅ (rq_headers raw) in
  let correlation_id :=
    let given := headers !! "X-Correlation-ID" in
    if truthy given then default "" given else w_uuid_correlation w in
  {| rc_correlation_id := correlation_id;
     rc_headers := headers;
     rc_body := from_option Payload EmptyDict (rq_body raw);
     rc_method := default "GET" (rq_method raw);
     rc_endpoint := default "" (rq_endpoint raw);
     rc_ip_address := default "" (rq_ip_address raw);
     rc_user_agent := default "" (rq_user_agent raw) |}.

(** The [try] block: the value returned, or the exception raised
    together with the local variables bound at that point. *)
Definition try_block (w : world) (raw : raw_request) (self : request_processor)
  : (response + exn * frame) * request_processor :=
  let request_context := build_context w raw in
  let correlation_id := rc_correlation_id request_context in
  (* 1. Organization/Tenant resolution *)
  let org_id := resolve_organization (rc_headers request_context) in
  if negb (truthy org_id) then
    (inr (MiddlewareException "Organization ID is required",
          Frame (Some correlation_id) (Some org_id) None), self)
  else
  (* 2. Authentication *)
  match authenticate_request (auth_middleware self) (rc_headers request_context) with
  | (Raised e, svc) =>
      (inr (e, Frame (Some correlation_id) (Some org_id) None), set_auth self svc)
  | (Returned None, svc) =>
      (inr (MiddlewareException "Authentication required",
            Frame (Some correlation_id) (Some org_id) (Some None)),
       set_auth self svc)
  | (Returned (Some auth_payload), svc) =>
      let self := set_auth self svc in
      let locals := Frame (Some correlation_id) (Some org_id) (Some (Some auth_payload)) in
      let user_id := tp_user_id auth_payload in
      let user_roles := default [] (tp_roles auth_payload) in
      (* 3. Rate limiting *)
      let client_id := py_str user_id ++ ":" ++ rc_ip_address request_context in
      let '(limited, rl) :=
        is_rate_limited (rate_limit_middleware self) (w_time w) client_id in
      let self := set_rate_limit self rl in
      if limited then (inr (MiddlewareException "Rate limit exceeded", locals), self)
      else
      (* 4. Idempotency check *)
      let idempotency_key := rc_headers request_context !! "Idempotency-Key" in
      match
        (if truthy idempotency_key then
           check_idempotency (idempotency_middleware self) (default "" idempotency_key)
         else None)
      with
      | Some cached_result =>
          (* a stored context is a dict with entries, hence truthy *)
          (inl (Cached cached_result), self)
      | None =>
          (* 5. Locale and timezone detection *)
          let locale := detect_locale (rc_headers request_context) in
          let timezone := detect_timezone (rc_headers request_context) in
          (* 6. Enhanced request context *)
          let enriched_context :=
            {| ec_request := request_context;
               ec_user_id := user_id;
               ec_org_id := org_id;
               ec_roles := user_roles;
               ec_locale := locale;
               ec_timezone := timezone;
               ec_authenticated := true |} in
          (* Log the request for audit *)
          match
            log_request (w_now_audit w) (audit_middleware self)
              {| rd_correlation_id := Some correlation_id;
                 rd_endpoint := Some (rc_endpoint request_context);
                 rd_method := Some (rc_method request_context);
                 rd_ip_address := Some (rc_ip_address request_context);
                 rd_user_agent := Some (rc_user_agent request_context);
                 rd_body := Some (rc_body request_context);
                 rd_status_code := Some 200 |}
              user_id org_id
              (Some (rc_method request_context ++ " " ++ rc_endpoint request_context))
          with
          | (Raised e, log) => (inr (e, locals), set_audit self log)
          | (Returned _, log) =>
              let self := set_audit self log in
              (* Store idempotency result if key was provided *)
              let self :=
                if truthy idempotency_key then
                  set_idempotency self
                    (store_result (idempotency_middleware self)
                       (default "" idempotency_key) enriched_context)
                else self in
              (inl (SuccessShape enriched_context
                      "Request processed successfully through all middleware"), self)
          end
      end
  end.

(** The [except Exception as e] handler. *)
Definition except_handler (w : world) (raw : raw_request) (e : exn) (locals : frame)
    (self : request_processor) : outcome response * request_processor :=
  let error_response :=
    normalize_error (w_uuid_error w) (w_now_error w) e "Request Processing" in
  let rd :=
    {| rd_correlation_id := l_correlation_id locals;
       rd_endpoint := Some (default "" (rq_endpoint raw));
       rd_method := Some (default "" (rq_method raw));
       rd_ip_address := Some (default "" (rq_ip_address raw));
       rd_user_agent := Some (default "" (rq_user_agent raw));
       rd_body := None;
       rd_status_code := Some (status_code error_response) |} in
  (* [auth_payload.get("user_id") if 'auth_payload' in locals() else None] *)
  match
    match l_auth_payload locals with
    | None => Returned None
    | Some (Some auth_payload) => Returned (tp_user_id auth_payload)
    | Some None => Raised (AttributeError "'NoneType' object has no attribute 'get'")
    end
  with
  | Raised e' => (Raised e', self)
  | Returned user_id =>
      let org_id := default None (l_org_id locals) in
      let action :=
        default "UNKNOWN" (rq_method raw) ++ " " ++ default "UNKNOWN" (rq_endpoint raw) in
      match
        log_request (w_now_audit_failure w) (audit_middleware self) rd
          user_id org_id (Some action)
      with
      | (Raised e', log) => (Raised e', set_audit self log)
      | (Returned _, log) =>
          (Returned (FailureShape error_response "Request failed middleware processing"),
           set_audit self log)
      end
  end.

Definition process_request (w : world) (raw : raw_request) (self : request_processor)
  : outcome response * request_processor :=
  match try_block w raw self with
  | (inl result, self) => (Returned result, self)
  | (inr (e, locals), self) =>
      if isinstance e "Exception" then except_handler w raw e locals self
      else (Raised e, self)
  end.

End Pipeline.

(** ** Sample collaborators and requests *)

Module Sample.

(** Three request payloads and what [json.dumps] does with them. *)
Inductive payload := PyNone | PyTrue | PyBytes.

Definition json_dumps (b : payload) : outcome string :=
  match b with
  | PyNone => Returned "null"
  | PyTrue => Returned "true"
  | PyBytes =>
      Raised (Exn "TypeError" ["Exception"; "BaseException"; "object"]
                ["Object of type bytes is not JSON serializable"]
                "Object of type bytes is not JSON serializable")
  end.

(** An exception of a class the normaliser does not know. *)
Definition key_error : exn :=
  Exn "KeyError" ["LookupError"; "Exception"; "BaseException"; "object"]
    ["missing"] "'missing'".

Definition learner : token_payload :=
  {| tp_user_id := Some "u1"; tp_roles := Some ["learner"]; tp_claims := ∅ |}.

(** An auth service that accepts exactly the token [good-token]. *)
Definition service : auth_service :=
  {| validate_token := λ token,
       if String.eqb token "good-token" then Returned (Some learner)
       else Returned None;
     validate_calls := [] |}.

Definition clock (t : Q) : world :=
  {| w_uuid_correlation := "c0ffee";
     w_time := t;
     w_now_audit := t;
     w_uuid_error := "deadbeef";
     w_now_error := t;
     w_now_audit_failure := t |}.

Definition request (headers : list (string * string)) (b : option payload)
  : raw_request :=
  {| rq_headers := Some (list_to_map headers);
     rq_body := b;
     rq_method := Some "POST";
     rq_endpoint := Some "/items";
     rq_ip_address := Some "1.2.3.4";
     rq_user_agent := Some "curl" |}.

Definition authorized : list (string * string) :=
  [("X-Organization-ID", "org1"); ("Authorization", "Bearer good-token")].

(** [n] further calls with the same request, one clock tick apart. *)
Fixpoint replay (n : nat) (raw : raw_request) (t : Q)
    (self : request_processor (Body := payload)) : request_processor :=
  match n with
  | O => self
  | S n => replay n raw (t + 1)%Q (process_request json_dumps (clock t) raw self).2
  end.

Definition fresh : request_processor (Body := payload) := new_processor service.

(** A valid token but no tenant header. *)
Definition no_tenant : raw_request :=
  request [("Authorization", "Bearer good-token")] None.

(** A tenant header and a token the service rejects. *)
Definition bad_token : raw_request :=
  request [("X-Organization-ID", "org1"); ("Authorization", "Bearer expired")] None.

(** A tenant header and no [Authorization] header at all. *)
Definition no_credentials : raw_request :=
  request [("X-Organization-ID", "org1")] None.

Definition plain : raw_request := request authorized None.

(** The processor after 100 admitted calls of the same client. *)
Definition saturated : request_processor := replay 100 plain 0 fresh.

Definition keyed (b : payload) : raw_request :=
  request (("Idempotency-Key", "k1") :: authorized) (Some b).

(** Two calls with the same idempotency key and different bodies. *)
Definition first_call : outcome response * request_processor :=
  process_request json_dumps (clock 0) (keyed PyNone) fresh.

Definition second_call : outcome response * request_processor :=
  process_request json_dumps (clock 1) (keyed PyTrue) first_call.2.

(** The [Accept-Language] header sent with an empty value. *)
Definition empty_language : raw_request :=
  request (("Accept-Language", "") :: authorized) None.

End Sample.

(** ** Runs of several operations *)

(** A stream of admission checks by several clients: each element is the
    client and the clock reading of its check. *)
Fixpoint serve (self : rate_limiter) (checks : list (string * Q)) : rate_limiter :=
  match checks with
  | [] => self
  | (client_id, now) :: rest => serve (is_rate_limited self now client_id).2 rest
  end.

(** ** PermissionService ([services/permission/service.py]) *)

Inductive PermissionAction := READ | WRITE | DELETE | EXECUTE.
Inductive PermissionTarget :=
  USER | ORGANIZATION | LEARNING_ITEM | SESSION | PROGRESS | CATEGORY.

#[global] Instance PermissionAction_eq_dec : EqDecision PermissionAction.
Proof. solve_decision. Defined.
#[global] Instance PermissionTarget_eq_dec : EqDecision PermissionTarget.
Proof. solve_decision. Defined.

(** One [{"action": ..., "target": ...}] entry of a role's list. *)
Record permission := Permission {
  perm_action : PermissionAction;
  perm_target : PermissionTarget
}.

Definition admin_permissions : list permission :=
  [Permission READ USER; Permission WRITE USER; Permission DELETE USER;
   Permission READ ORGANIZATION; Permission WRITE ORGANIZATION;
   Permission READ LEARNING_ITEM; Permission WRITE LEARNING_ITEM;
   Permission DELETE LEARNING_ITEM;
   Permission READ SESSION; Permission WRITE SESSION;
   Permission READ PROGRESS; Permission WRITE PROGRESS;
   Permission READ CATEGORY; Permission WRITE CATEGORY; Permission DELETE CATEGORY].

Definition instructor_permissions : list permission :=
  [Permission READ USER; Permission READ ORGANIZATION;
   Permission READ LEARNING_ITEM; Permission WRITE LEARNING_ITEM;
   Permission READ SESSION; Permission WRITE SESSION;
   Permission READ PROGRESS;
   Permission READ CATEGORY; Permission WRITE CATEGORY].

Definition learner_permissions : list permission :=
  [Permission READ LEARNING_ITEM;
   Permission READ SESSION; Permission WRITE SESSION;
   Permission READ PROGRESS; Permission WRITE PROGRESS;
   Permission READ CATEGORY].

Definition role_permissions : gmap string (list permission) :=
  list_to_map [("admin", admin_permissions);
               ("instructor", instructor_permissions);
               ("learner", learner_permissions)].

Definition _check_resource_specific_rules (user_id role : string)
    (action : PermissionAction) (target : PermissionTarget)
    (resource_id org_id : option string) : outcome bool :=
  if String.eqb role "learner" && bool_decide (target = PROGRESS)
     && bool_decide (action = WRITE) then
    (* [resource_id == user_id or resource_id.startswith(f"user_{user_id}")] *)
    match resource_id with
    | Some resource_id =>
        Returned (String.eqb resource_id user_id
                  || String.prefix ("user_" ++ user_id) resource_id)
    | None =>
        (* [None == user_id] is false for a string, then [None.startswith] *)
        Raised (AttributeError "'NoneType' object has no attribute 'startswith'")
    end
  else Returned true.

Definition has_permission (user_id role : string)
    (action : PermissionAction) (target : PermissionTarget)
    (resource_id org_id : option string) : outcome bool :=
  match role_permissions !! role with
  | None => Returned false
  | Some permissions =>
      let has_basic_permission :=
        existsb (λ perm, bool_decide (perm_action perm = action)
                         && bool_decide (perm_target perm = target))
          permissions in
      if negb has_basic_permission then Returned false
      else _check_resource_specific_rules user_id role action target resource_id org_id
  end.

Definition get_available_actions (role : string) (target : PermissionTarget)
  : list PermissionAction :=
  match role_permissions !! role with
  | None => []
  | Some permissions =>
      perm_action <$> List.filter (λ perm, bool_decide (perm_target perm = target))
                        permissions
  end.

Definition validate_role_assignment (assigner_role target_role assigner_org target_org : string)
  : bool :=
  if String.eqb assigner_role "admin" then String.eqb assigner_org target_org
  else if String.eqb assigner_role "instructor" && String.eqb target_role "learner"
  then String.eqb assigner_org target_org
  else false.

(** ** RequestProcessor.check_permission *)

(** [str.lower()] on the ASCII letters. A character outside ASCII is left
    as it is: the keys looked up below are ASCII, and the only ASCII letter
    that a non-ASCII character lowers to is [k], which no key contains. *)
Definition lower_ascii (a : Ascii.ascii) : Ascii.ascii :=
  let n := Ascii.nat_of_ascii a in
  if (65 <=? n)%nat && (n <=? 90)%nat then Ascii.ascii_of_nat (n + 32) else a.

Fixpoint lower (s : string) : string :=
  match s with
  | EmptyString => EmptyString
  | String a rest => String (lower_ascii a) (lower rest)
  end.

Definition action_map : gmap string PermissionAction :=
  list_to_map [("read", READ); ("write", WRITE); ("delete", DELETE);
               ("execute", EXECUTE)].

Definition resource_map : gmap string PermissionTarget :=
  list_to_map [("user", USER); ("organization", ORGANIZATION);
               ("learning_item", LEARNING_ITEM); ("session", SESSION);
               ("progress", PROGRESS); ("category", CATEGORY)].

(** The collaborator stored in [self.permission_service]: its
    [has_permission] method. *)
Definition permission_checker : Type :=
  string → string → PermissionAction → PermissionTarget →
  option string → option string → outcome bool.

(** [resource_id] is not passed, so the service sees its default [None]. *)
Definition check_permission (permission_service : permission_checker)
    (user_id role action resource : string) (org_id : string) : outcome bool :=
  let perm_action := default READ (action_map !! lower action) in
  let perm_target := default USER (resource_map !! lower resource) in
  permission_service user_id role perm_action perm_target None (Some org_id).

(** ** AIUsageMeteringMiddleware *)

Section Metering.
(** Processing times are floats; their type and addition are left
    abstract. *)
Context {F : Type}.
Variable fzero : F.
Variable fadd : F → F → F.

Record usage := Usage {
  requests_count : Z;
  input_tokens_total : Z;
  output_tokens_total : Z;
  total_processing_time : F;
  last_used : Q
}.

(** [created] and [now] are the two readings of [datetime.now]: the first
    is taken only when the model's entry is created. *)
Definition record_ai_usage (created now : Q) (usage_stats : gmap string (gmap string usage))
    (user_id model : string) (input_tokens output_tokens : Z) (processing_time : F)
  : gmap string (gmap string usage) :=
  let usage_stats :=
    match usage_stats !! user_id with
    | None => <[user_id := ∅]> usage_stats
    | Some _ => usage_stats
    end in
  let per_model := default ∅ (usage_stats !! user_id) in
  let per_model :=
    match per_model !! model with
    | None => <[model := Usage 0 0 0 fzero created]> per_model
    | Some _ => per_model
    end in
  let stats := default (Usage 0 0 0 fzero created) (per_model !! model) in
  let stats :=
    {| requests_count := requests_count stats + 1;
       input_tokens_total := input_tokens_total stats + input_tokens;
       output_tokens_total := output_tokens_total stats + output_tokens;
       total_processing_time := fadd (total_processing_time stats) processing_time;
       last_used := now |} in
  <[user_id := <[model := stats]> per_model]> usage_stats.

(** The three values [get_usage_summary] can return: the empty dict, one
    model's statistics, or the user's whole dict. *)
Inductive usage_summary :=
| NoUsage
| ModelUsage (stats : usage)
| UserUsage (per_model : gmap string usage).

Definition get_usage_summary (usage_stats : gmap string (gmap string usage))
    (user_id : string) (model : option string) : usage_summary :=
  match usage_stats !! user_id with
  | None => NoUsage
  | Some per_model =>
      if truthy model then
        match per_model !! default "" model with
        | Some stats => ModelUsage stats
        | None => NoUsage
        end
      else UserUsage per_model
  end.

(** One recorded call and a sequence of them. *)
Record usage_call := UsageCall {
  uc_user : string;
  uc_model : string;
  uc_input : Z;
  uc_output : Z;
  uc_time : F;
  uc_created : Q;
  uc_now : Q
}.

Definition record_call (stats : gmap string (gmap string usage)) (c : usage_call) :=
  record_ai_usage (uc_created c) (uc_now c) stats (uc_user c) (uc_model c)
    (uc_input c) (uc_output c) (uc_time c).

Definition record_all (stats : gmap string (gmap string usage)) (calls : list usage_call) :=
  foldl record_call stats calls.

(** The calls of one user and model. *)
Definition calls_of (user_id model : string) (calls : list usage_call) : list usage_call :=
  List.filter (λ c, String.eqb (uc_user c) user_id && String.eqb (uc_model c) model) calls.

Definition sum_Z (l : list Z) : Z := foldr Z.add 0 l.

(** [usage_stats[user_id][model]], when both keys are present. *)
Definition usage_of (stats : gmap string (gmap string usage)) (user_id model : string)
  : option usage :=
  stats !! user_id ≫= λ per_model, per_model !! model.

End Metering.

(** ** The [apply_middleware] decorator *)

Definition KeyError (key : string) : exn :=
  Exn "KeyError" ["LookupError"; "Exception"; "BaseException"; "object"]
    [key] ("'" ++ key ++ "'").

Section Decorator.
Context {Body : Type}.
Variable json_dumps : Body → outcome string.
(** The result type of the decorated function. *)
Context {R : Type}.

(** Truthiness of a request dict: it has at least one entry. *)
Definition request_truthy (r : raw_request (Body := Body)) : bool :=
  match rq_headers r, rq_body r, rq_method r, rq_endpoint r,
        rq_ip_address r, rq_user_agent r with
  | None, None, None, None, None, None => false
  | _, _, _, _, _, _ => true
  end.

(** What the wrapper inspects of its arguments: [args[0]] when there is a
    positional argument, and the keyword argument [request] when it is
    given. All other arguments are handed to the function untouched and are
    left out. *)
Record arguments := Arguments {
  first_positional : option (raw_request (Body := Body));
  keyword_request : option (raw_request (Body := Body))
}.

(** The dict bound to the keyword [request] when the function runs: the
    caller's dict as it was, or after [update(enriched_request)]. Every key
    of a request is a key of the enriched context, so after the update the
    dict has exactly the entries of the enriched context. *)
Inductive request_argument :=
| Original (r : raw_request (Body := Body))
| Updated (enriched : enriched_context (Body := Body)).

(** The arguments the decorated function receives. *)
Record func_arguments := FuncArguments {
  f_positional : option (raw_request (Body := Body));
  f_request : option request_argument;
  f_enriched_context : option (enriched_context (Body := Body))
}.

(** The wrapper returns the failure dict of the pipeline or the value of
    the function. *)
Inductive wrapper_result :=
| ErrorResult (error : normalized_error) (message : string)
| FuncResult (r : R).

(** [kwargs.get('request') or (args[0] if args else None)] *)
Definition selected_request (args : arguments) : option (raw_request (Body := Body)) :=
  match keyword_request args with
  | Some r => if request_truthy r then Some r else first_positional args
  | None => first_positional args
  end.

Definition call_func (func : func_arguments → outcome R) (fa : func_arguments)
  : outcome wrapper_result :=
  match func fa with
  | Returned r => Returned (FuncResult r)
  | Raised e => Raised e
  end.

Definition wrapper (func : func_arguments → outcome R) (w : world) (args : arguments)
    (processor : request_processor (Body := Body))
  : outcome wrapper_result * request_processor (Body := Body) :=
  let untouched :=
    FuncArguments (first_positional args) (Original <$> keyword_request args) None in
  match selected_request args with
  | Some request =>
      if request_truthy request then
        match process_request json_dumps w request processor with
        | (Raised e, processor) => (Raised e, processor)
        | (Returned (Cached _), processor) =>
            (* [result["success"]] on a dict without that key *)
            (Raised (KeyError "success"), processor)
        | (Returned (FailureShape error message), processor) =>
            (Returned (ErrorResult error message), processor)
        | (Returned (SuccessShape enriched_request _), processor) =>
            (call_func func
               (FuncArguments (first_positional args)
                  ((λ _, Updated enriched_request) <$> keyword_request args)
                  (Some enriched_request)),
             processor)
        end
      else (call_func func untouched, processor)
  | None => (call_func func untouched, processor)
  end.

End Decorator.

(** ** Further sample inputs *)

Module Demo.

(** An auth service whose [validate_token] raises a [ValueError]. *)
Definition failing_service : auth_service :=
  {| validate_token := λ _,
       Raised (Exn "ValueError" ["Exception"; "BaseException"; "object"]
                 ["Invalid header padding"] "Invalid header padding");
     validate_calls := [] |}.

(** A request that brings its own correlation id. *)
Definition traced : raw_request :=
  Sample.request (("X-Correlation-ID", "trace-1") :: Sample.authorized) None.

(** An empty primary tenant header and a tenant in the alias header. *)
Definition alias_tenant : raw_request :=
  Sample.request
    [("X-Organization-ID", ""); ("X-Tenant-ID", "org2");
     ("Authorization", "Bearer good-token")] None.

(** A body that [json.dumps] rejects. *)
Definition binary_body : raw_request :=
  Sample.request Sample.authorized (Some Sample.PyBytes).

(** The empty dict as a request. *)
Definition empty_request : raw_request (Body := Sample.payload) :=
  RawRequest None None None None None None.

(** A decorated function: it reports the user it was called for. *)
Definition handler (fa : func_arguments (Body := Sample.payload)) : outcome string :=
  Returned
    match f_enriched_context fa with
    | Some ctx => py_str (ec_user_id ctx)
    | None => "anonymous"
    end.

(** The last entry of an audit log. *)
Definition last_entry (log : list audit_entry) : option audit_entry := last log.

(** Metered calls of two users; processing times in milliseconds. *)
Definition metered : list (usage_call (F := Z)) :=
  [UsageCall "u1" "mistral" 10 20 150 0 1;
   UsageCall "u2" "mistral" 5 5 90 2 3;
   UsageCall "u1" "mistral" 7 1 30 4 5;
   UsageCall "u1" "llama" 3 3 10 6 7].

End Demo.

(** * Properties *)

(** ** Idempotency store *)

Lemma check_after_store {V} (s : gmap string V) k r :
  check_idempotency (store_result s k r) k = Some r.
Proof. unfold check_idempotency, store_result. apply lookup_insert_eq. Qed.

Lemma store_other_key {V} (s : gmap string V) k k' r :
  k ≠ k' → check_idempotency (store_result s k r) k' = check_idempotency s k'.
Proof. intros Hne. unfold check_idempotency, store_result. by apply lookup_insert_ne. Qed.

(** C7, as stated, fails: with an empty store, key [k] and results [first] then
    [second], [check] after the two [store] calls gives [second]. *)
Lemma store_first_write_wins_fails :
  ¬ (∀ (s : gmap string string) k r1 r2,
       check_idempotency (store_result (store_result s k r1) k r2) k = Some r1).
Proof.
  intros H. specialize (H ∅ "k" "first" "second").
  rewrite check_after_store in H. discriminate H.
Qed.

(** C7, amended: [store_result] overwrites. After [store(k, r1)] then
    [store(k, r2)] the value kept for [k] is [r2], the store is the one a single
    [store(k, r2)] gives, and [check(k)] returns [r2]. *)
Theorem store_last_write_wins {V} (s : gmap string V) k r1 r2 :
  check_idempotency (store_result (store_result s k r1) k r2) k = Some r2
  ∧ store_result (store_result s k r1) k r2 = store_result s k r2.
Proof.
  split; [apply check_after_store|].
  unfold store_result. apply insert_insert_eq.
Qed.

(** ** Error normaliser *)

Lemma categorize_cases e :
  categorize e ∈ [("middleware_error", 400); ("validation_error", 400);
                  ("authorization_error", 403); ("resource_not_found", 404);
                  ("system_error", 500)].
Proof. unfold categorize. repeat case_match; set_solver. Qed.

Lemma normalize_error_categorize u t e c :
  (category (normalize_error u t e c), status_code (normalize_error u t e c))
  = categorize e.
Proof. unfold normalize_error. by destruct (categorize e). Qed.

Lemma normalize_middleware_exception u t msg c :
  category (normalize_error u t (MiddlewareException msg) c) = "middleware_error"
  ∧ status_code (normalize_error u t (MiddlewareException msg) c) = 400
  ∧ err_message (normalize_error u t (MiddlewareException msg) c) = msg
  ∧ err_type (normalize_error u t (MiddlewareException msg) c) = "MiddlewareException".
Proof. by vm_compute. Qed.

(** The [if]/[elif] chain, branch by branch: the first class of the chain
    the exception is an instance of decides. *)
Lemma normalize_error_table u t e c :
  (isinstance e "MiddlewareException" = true →
   category (normalize_error u t e c) = "middleware_error"
   ∧ status_code (normalize_error u t e c) = 400)
  ∧ (isinstance e "MiddlewareException" = false →
     isinstance e "ValueError" = true →
     category (normalize_error u t e c) = "validation_error"
     ∧ status_code (normalize_error u t e c) = 400)
  ∧ (isinstance e "MiddlewareException" = false →
     isinstance e "ValueError" = false →
     isinstance e "PermissionError" = true →
     category (normalize_error u t e c) = "authorization_error"
     ∧ status_code (normalize_error u t e c) = 403)
  ∧ (isinstance e "MiddlewareException" = false →
     isinstance e "ValueError" = false →
     isinstance e "PermissionError" = false →
     isinstance e "FileNotFoundError" = true →
     category (normalize_error u t e c) = "resource_not_found"
     ∧ status_code (normalize_error u t e c) = 404)
  ∧ (isinstance e "MiddlewareException" = false →
     isinstance e "ValueError" = false →
     isinstance e "PermissionError" = false →
     isinstance e "FileNotFoundError" = false →
     category (normalize_error u t e c) = "system_error"
     ∧ status_code (normalize_error u t e c) = 500).
Proof.
  pose proof (normalize_error_categorize u t e c) as Heq. unfold categorize in Heq.
  destruct (normalize_error u t e c) as [? ? ? cat ? ? code ? ?]; simpl in *.
  split_and!; intros; repeat match goal with H : isinstance _ _ = _ |- _ =>
    rewrite H in Heq; clear H end; by injection Heq as -> ->.
Qed.

(** Plain instances of the three built-in classes of the chain. *)
Lemma normalize_error_builtin u t msg c :
  (category (normalize_error u t (ValueError msg) c),
   status_code (normalize_error u t (ValueError msg) c)) = ("validation_error", 400)
  ∧ (category (normalize_error u t (PermissionError msg) c),
     status_code (normalize_error u t (PermissionError msg) c))
    = ("authorization_error", 403)
  ∧ (category (normalize_error u t (FileNotFoundError msg) c),
     status_code (normalize_error u t (FileNotFoundError msg) c))
    = ("resource_not_found", 404).
Proof. by vm_compute. Qed.

(** No branch assigns 401 or 429, and no branch names a category
    [MissingTenant]. *)
Lemma normalize_error_codes u t e c :
  status_code (normalize_error u t e c) ≠ 401
  ∧ status_code (normalize_error u t e c) ≠ 429
  ∧ category (normalize_error u t e c) ≠ "MissingTenant".
Proof.
  pose proof (normalize_error_categorize u t e c) as Heq. unfold categorize in Heq.
  destruct (normalize_error u t e c) as [? ? ? cat ? ? code ? ?]; simpl in *.
  by repeat case_match; injection Heq as -> ->.
Qed.

(** C8: [normalize_error] is a total function: for every exception it yields
    a record whose category is one of the five category names (so never empty)
    and whose status code is among 400, 401, 403, 404, 429 and 500; an
    exception that is an instance of none of the four recognised classes gets
    [system_error] and 500. *)
Theorem normalize_error_total u t e c :
  category (normalize_error u t e c) ∈ categories
  ∧ category (normalize_error u t e c) ≠ ""
  ∧ status_code (normalize_error u t e c) ∈ [400; 401; 403; 404; 429; 500]
  ∧ (isinstance e "MiddlewareException" = false →
     isinstance e "ValueError" = false →
     isinstance e "PermissionError" = false →
     isinstance e "FileNotFoundError" = false →
     category (normalize_error u t e c) = "system_error"
     ∧ status_code (normalize_error u t e c) = 500).
Proof.
  pose proof (normalize_error_categorize u t e c) as Heq.
  pose proof (categorize_cases e) as Hin. rewrite <- Heq in Hin.
  destruct (normalize_error u t e c) as [? ? ? cat ? ? code ? ?]; simpl in *.
  split_and!.
  - unfold categories.
    repeat (apply elem_of_cons in Hin as [Hin|Hin]; [injection Hin as -> ->; set_solver|]).
    by apply elem_of_nil in Hin.
  - repeat (apply elem_of_cons in Hin as [Hin|Hin]; [injection Hin as -> ->; done|]).
    by apply elem_of_nil in Hin.
  - repeat (apply elem_of_cons in Hin as [Hin|Hin]; [injection Hin as -> ->; set_solver|]).
    by apply elem_of_nil in Hin.
  - intros H1 H2 H3 H4. unfold categorize in Heq.
    rewrite H1, H2, H3, H4 in Heq. by injection Heq as -> ->.
Qed.

Lemma normalize_error_total_witness :
  category (normalize_error "id" 0 Sample.key_error "ctx") = "system_error"
  ∧ status_code (normalize_error "id" 0 Sample.key_error "ctx") = 500.
Proof.
  apply (normalize_error_total "id" 0 Sample.key_error "ctx"); reflexivity.
Defined.

(** ** Audit read path *)

(** C9 is contradicted by the code: [get_audit_trail] raises [AttributeError]
    for every log and every combination of arguments, because the name
    [datetime] is the class and has no attribute [timedelta]. *)
Theorem get_audit_trail_raises (log : list audit_entry) now user_id org_id days_back :
  get_audit_trail now log user_id org_id days_back
  = Raised (AttributeError "type object 'datetime.datetime' has no attribute 'timedelta'").
Proof. reflexivity. Qed.

(** ** Rate limiter *)

Section RateLimiter.
Variable self : rate_limiter.
Variable now : Q.
Variable client_id : string.

Let W : Q := inject_Z (window_seconds self).

Lemma is_rate_limited_config :
  max_requests (is_rate_limited self now client_id).2 = max_requests self
  ∧ window_seconds (is_rate_limited self now client_id).2 = window_seconds self.
Proof. unfold is_rate_limited. repeat case_match; done. Qed.

Lemma cleanup_keeps count timestamp :
  bucket self client_id = Some (count, timestamp) →
  (now - timestamp < W)%Q →
  filter (λ kv : string * (Z * Q), (now - W < kv.2.2)%Q) (request_counts self)
    !! client_id = Some (count, timestamp).
Proof.
  intros Hb Hlt. apply map_lookup_filter_Some. split; [done|]. simpl. lra.
Qed.

Lemma cleanup_drops count timestamp :
  bucket self client_id = Some (count, timestamp) →
  (W <= now - timestamp)%Q →
  filter (λ kv : string * (Z * Q), (now - W < kv.2.2)%Q) (request_counts self)
    !! client_id = None.
Proof.
  intros Hb Hge. apply map_lookup_filter_None. right.
  intros x Hx. unfold bucket in Hb. rewrite Hb in Hx. injection Hx as <-.
  simpl. lra.
Qed.

Lemma cleanup_absent :
  bucket self client_id = None →
  filter (λ kv : string * (Z * Q), (now - W < kv.2.2)%Q) (request_counts self)
    !! client_id = None.
Proof. intros Hb. apply map_lookup_filter_None. by left. Qed.

(** No record: admitted, and a record with count 1 is created. *)
Lemma is_rate_limited_absent :
  bucket self client_id = None →
  (is_rate_limited self now client_id).1 = false
  ∧ bucket (is_rate_limited self now client_id).2 client_id = Some (1, now).
Proof.
  intros Hb. unfold is_rate_limited. fold W. rewrite (cleanup_absent Hb).
  split; [done|]. apply lookup_insert_eq.
Qed.

(** A live record below the limit: admitted, count incremented and the
    stored timestamp replaced by the current reading. *)
Lemma is_rate_limited_below count timestamp :
  bucket self client_id = Some (count, timestamp) →
  (now - timestamp < W)%Q →
  count < max_requests self →
  (is_rate_limited self now client_id).1 = false
  ∧ bucket (is_rate_limited self now client_id).2 client_id = Some (count + 1, now).
Proof.
  intros Hb Hlt Hc. unfold is_rate_limited. fold W.
  rewrite (cleanup_keeps _ _ Hb Hlt).
  destruct (decide _) as [_|Hn]; [|done].
  destruct (decide _) as [Hle|_]; [lia|].
  split; [done|]. apply lookup_insert_eq.
Qed.

(** A live record at the limit: rejected, record untouched. *)
Lemma is_rate_limited_full count timestamp :
  bucket self client_id = Some (count, timestamp) →
  (now - timestamp < W)%Q →
  max_requests self ≤ count →
  (is_rate_limited self now client_id).1 = true
  ∧ bucket (is_rate_limited self now client_id).2 client_id = Some (count, timestamp).
Proof.
  intros Hb Hlt Hc. unfold is_rate_limited. fold W.
  rewrite (cleanup_keeps _ _ Hb Hlt).
  destruct (decide _) as [_|Hn]; [|done].
  destruct (decide _) as [_|Hn]; [|lia].
  split; [done|]. by apply cleanup_keeps.
Qed.

(** A record whose timestamp is a full window old: removed by the clean-up,
    so the client is admitted with a new record. *)
Lemma is_rate_limited_expired count timestamp :
  bucket self client_id = Some (count, timestamp) →
  (W <= now - timestamp)%Q →
  (is_rate_limited self now client_id).1 = false
  ∧ bucket (is_rate_limited self now client_id).2 client_id = Some (1, now).
Proof.
  intros Hb Hge. unfold is_rate_limited. fold W.
  rewrite (cleanup_drops _ _ Hb Hge).
  split; [done|]. apply lookup_insert_eq.
Qed.
End RateLimiter.

(** Linear arithmetic over clock readings, once the window is a literal. *)
Ltac clock := unfold inject_Z; lra.

Lemma admission_verdicts_cons self k t ts :
  (admission_checks self k (t :: ts)).1
  = (is_rate_limited self t k).1
      :: (admission_checks (is_rate_limited self t k).2 k ts).1.
Proof.
  cbn [admission_checks]. destruct (is_rate_limited self t k) as [b s1].
  cbn [fst snd]. by destruct (admission_checks s1 k ts).
Qed.

Lemma admission_state_cons self k t ts :
  (admission_checks self k (t :: ts)).2
  = (admission_checks (is_rate_limited self t k).2 k ts).2.
Proof.
  cbn [admission_checks]. destruct (is_rate_limited self t k) as [b s1].
  cbn [fst snd]. by destruct (admission_checks s1 k ts).
Qed.

Lemma admission_verdicts_nil self k : (admission_checks self k []).1 = [].
Proof. reflexivity. Qed.

Lemma admission_state_nil self k : (admission_checks self k []).2 = self.
Proof. reflexivity. Qed.

(** At the limit the verdict depends only on the age of the stored timestamp. *)
Lemma is_rate_limited_at_limit self now k count timestamp :
  bucket self k = Some (count, timestamp) →
  max_requests self ≤ count →
  (is_rate_limited self now k).1
  = bool_decide (now - timestamp < inject_Z (window_seconds self))%Q.
Proof.
  intros Hb Hc. case_bool_decide as Hlt.
  - by destruct (is_rate_limited_full self now k count timestamp).
  - destruct (is_rate_limited_expired self now k count timestamp); [done| |done].
    by apply Qnot_lt_le.
Qed.

(** C3, as stated, fails: with checks at seconds 0, 10, 20 and 30, a fifth
    check at second 60, a full window after the first one, is rejected. *)
Lemma window_from_first_request_fails :
  ¬ (∀ t1 t2 t3 t4 t5 : Q,
       (t1 <= t2)%Q → (t2 <= t3)%Q → (t3 <= t4)%Q → (t4 < t1 + 60)%Q →
       (t1 + 60 <= t5)%Q →
       (admission_checks (RateLimiter 3 60 ∅) "client" [t1; t2; t3; t4; t5]).1
       = [false; false; false; true; false]).
Proof.
  intros H. specialize (H 0 10 20 30 60)%Q.
  assert (Hrun : (admission_checks (RateLimiter 3 60 ∅) "client" [0; 10; 20; 30; 60]%Q).1
                 = [false; false; false; true; true]) by (by vm_compute).
  rewrite Hrun in H. by discriminate H; lra.
Qed.

(** C3, amended: with [max_requests = 3] and [window_seconds = 60], four checks
    of one client within 60 seconds of the first give admitted, admitted,
    admitted, rejected, and the rejected check leaves the client's record at
    count 3 with the timestamp of the third check. Every admitted check
    replaces the stored timestamp, so a fifth check is rejected exactly while
    fewer than 60 seconds have passed since the third (the last admitted)
    check, and is admitted, with a new record of count 1, from then on. *)
Theorem rate_limit_window (counts : gmap string (Z * Q)) k (t1 t2 t3 t4 t5 : Q) :
  counts !! k = None →
  (t1 <= t2)%Q → (t2 <= t3)%Q → (t3 <= t4)%Q → (t4 < t1 + 60)%Q →
  (admission_checks (RateLimiter 3 60 counts) k [t1; t2; t3; t4; t5]).1
  = [false; false; false; true; bool_decide (t5 - t3 < 60)%Q]
  ∧ bucket (admission_checks (RateLimiter 3 60 counts) k [t1; t2; t3]).2 k
    = Some (3, t3)
  ∧ bucket (admission_checks (RateLimiter 3 60 counts) k [t1; t2; t3; t4]).2 k
    = Some (3, t3)
  ∧ ((60 <= t5 - t3)%Q →
     bucket (admission_checks (RateLimiter 3 60 counts) k [t1; t2; t3; t4; t5]).2 k
     = Some (1, t5)).
Proof.
  intros Hk H12 H23 H34 H41.
  remember (RateLimiter 3 60 counts) as self eqn:Hself.
  assert (Hm0 : max_requests self = 3) by (by subst self).
  assert (Hw0 : window_seconds self = 60) by (by subst self).
  assert (Hk0 : bucket self k = None) by (by subst self).
  clear Hself Hk.
  rewrite !admission_verdicts_cons, !admission_state_cons,
    !admission_verdicts_nil, !admission_state_nil.
  (* first check: no record yet *)
  destruct (is_rate_limited_absent self t1 k Hk0) as [Ho1 Hb1].
  destruct (is_rate_limited_config self t1 k) as [Hm1 Hw1].
  rewrite Hm0 in Hm1. rewrite Hw0 in Hw1.
  destruct (is_rate_limited self t1 k) as [o1 s1]. cbn [fst snd] in *.
  (* second and third checks: live record below the limit *)
  destruct (is_rate_limited_below s1 t2 k 1 t1 Hb1) as [Ho2 Hb2];
    [rewrite Hw1; clock | lia |].
  destruct (is_rate_limited_config s1 t2 k) as [Hm2 Hw2].
  rewrite Hm1 in Hm2. rewrite Hw1 in Hw2.
  destruct (is_rate_limited s1 t2 k) as [o2 s2]. cbn [fst snd] in *.
  change (1 + 1) with 2 in Hb2.
  destruct (is_rate_limited_below s2 t3 k 2 t2 Hb2) as [Ho3 Hb3];
    [rewrite Hw2; clock | lia |].
  destruct (is_rate_limited_config s2 t3 k) as [Hm3 Hw3].
  rewrite Hm2 in Hm3. rewrite Hw2 in Hw3.
  destruct (is_rate_limited s2 t3 k) as [o3 s3]. cbn [fst snd] in *.
  change (2 + 1) with 3 in Hb3.
  (* fourth check: the record is at the limit *)
  destruct (is_rate_limited_full s3 t4 k 3 t3 Hb3) as [Ho4 Hb4];
    [rewrite Hw3; clock | lia |].
  destruct (is_rate_limited_config s3 t4 k) as [Hm4 Hw4].
  rewrite Hm3 in Hm4. rewrite Hw3 in Hw4.
  destruct (is_rate_limited s3 t4 k) as [o4 s4]. cbn [fst snd] in *.
  (* fifth check *)
  pose proof (is_rate_limited_at_limit s4 t5 k 3 t3 Hb4) as Ho5.
  rewrite Hm4, Hw4 in Ho5. specialize (Ho5 (Z.le_refl 3)).
  split_and!.
  - rewrite Ho1, Ho2, Ho3, Ho4, Ho5. reflexivity.
  - exact Hb3.
  - exact Hb4.
  - intros H5.
    destruct (is_rate_limited_expired s4 t5 k 3 t3 Hb4) as [_ Hb5]; [|exact Hb5].
    rewrite Hw4. clock.
Qed.

Lemma rate_limit_window_witness :
  (admission_checks (RateLimiter 3 60 ∅) "client" [0; 10; 20; 30; 80]%Q).1
  = [false; false; false; true; bool_decide (80 - 20 < 60)%Q]
  ∧ bucket (admission_checks (RateLimiter 3 60 ∅) "client" [0; 10; 20]%Q).2 "client"
    = Some (3, 20%Q)
  ∧ bucket (admission_checks (RateLimiter 3 60 ∅) "client" [0; 10; 20; 30]%Q).2 "client"
    = Some (3, 20%Q)
  ∧ bucket (admission_checks (RateLimiter 3 60 ∅) "client" [0; 10; 20; 30; 80]%Q).2 "client"
    = Some (1, 80%Q).
Proof.
  destruct (rate_limit_window ∅ "client" 0 10 20 30 80)%Q as (H1 & H2 & H3 & H4);
    [reflexivity | lra | lra | lra | lra |].
  split_and!; [exact H1 | exact H2 | exact H3 | apply H4; lra].
Defined.

(** ** The pipeline *)

Lemma resolve_organization_absent (h : gmap string string) :
  h !! "X-Organization-ID" = None → h !! "X-Tenant-ID" = None →
  resolve_organization h = None.
Proof.
  intros H1 H2. unfold resolve_organization, _default_org_resolver, py_or.
  by rewrite H1, H2.
Qed.

Lemma isinstance_middleware_exception msg :
  isinstance (MiddlewareException msg) "Exception" = true.
Proof. reflexivity. Qed.

Section PipelineFacts.
Context {Body : Type}.
Variable json_dumps : Body → outcome string.

#[local] Abbreviation processor := (request_processor (Body := Body)).
#[local] Abbreviation request := (raw_request (Body := Body)).

Implicit Types (w : world) (raw : request) (self : processor).

(** The handler's audit call cannot fail: it passes no body. *)
Lemma log_request_no_body now log rd user_id org_id action :
  rd_body rd = None →
  ∃ entry, log_request json_dumps now log rd user_id org_id action
           = (Returned (), (log ++ [entry])%list)
           ∧ ae_status_code entry = default 200 (rd_status_code rd)
           ∧ ae_user_id entry = user_id ∧ ae_org_id entry = org_id.
Proof.
  intros Hb. unfold log_request. rewrite Hb. cbn [default dumps].
  eexists. split; [reflexivity|]. done.
Qed.

(** Stage 1 fails: the tenant is not resolved. *)
Lemma try_block_no_tenant w raw self :
  truthy (resolve_organization (default ∅ (rq_headers raw))) = false →
  try_block json_dumps w raw self
  = (inr (MiddlewareException "Organization ID is required",
          Frame (Some (rc_correlation_id (build_context w raw)))
                (Some (resolve_organization (default ∅ (rq_headers raw)))) None),
     self).
Proof.
  intros Hf. unfold try_block. cbn [rc_headers build_context]. by rewrite Hf.
Qed.

(** Stage 2 fails: the authentication middleware returns [None]. *)
Lemma try_block_unauthenticated w raw self svc :
  truthy (resolve_organization (default ∅ (rq_headers raw))) = true →
  authenticate_request (auth_middleware self) (default ∅ (rq_headers raw))
  = (Returned None, svc) →
  try_block json_dumps w raw self
  = (inr (MiddlewareException "Authentication required",
          Frame (Some (rc_correlation_id (build_context w raw)))
                (Some (resolve_organization (default ∅ (rq_headers raw))))
                (Some None)),
     set_auth self svc).
Proof.
  intros Ht Ha. unfold try_block. cbn [rc_headers build_context].
  by rewrite Ht, Ha.
Qed.

(** Stage 3 fails: the rate limiter rejects the client. *)
Lemma try_block_rate_limited w raw self svc auth_payload rl :
  truthy (resolve_organization (default ∅ (rq_headers raw))) = true →
  authenticate_request (auth_middleware self) (default ∅ (rq_headers raw))
  = (Returned (Some auth_payload), svc) →
  is_rate_limited (rate_limit_middleware self) (w_time w)
    (py_str (tp_user_id auth_payload) ++ ":" ++ default "" (rq_ip_address raw))
  = (true, rl) →
  try_block json_dumps w raw self
  = (inr (MiddlewareException "Rate limit exceeded",
          Frame (Some (rc_correlation_id (build_context w raw)))
                (Some (resolve_organization (default ∅ (rq_headers raw))))
                (Some (Some auth_payload))),
     set_rate_limit (set_auth self svc) rl).
Proof.
  intros Ht Ha Hr. unfold try_block.
  cbn [rc_headers rc_ip_address build_context]. rewrite Ht, Ha.
  cbn [negb set_auth rate_limit_middleware]. by rewrite Hr.
Qed.

(** What the handler does with a [MiddlewareException] when the name
    [auth_payload] is unbound or bound to a payload. *)
Lemma except_handler_audits w raw e cid org payload self :
  payload ≠ Some None →
  ∃ entry,
    except_handler json_dumps w raw e (Frame cid org payload) self
    = (Returned
         (FailureShape
            (normalize_error (w_uuid_error w) (w_now_error w) e "Request Processing")
            "Request failed middleware processing"),
       set_audit self (audit_middleware self ++ [entry])%list)
    ∧ ae_status_code entry
      = status_code
          (normalize_error (w_uuid_error w) (w_now_error w) e "Request Processing").
Proof.
  intros Hp. unfold except_handler. cbn [l_auth_payload l_org_id l_correlation_id].
  destruct payload as [[p|]|]; [| done |].
  all: eexists; split; reflexivity.
Qed.

(** With [auth_payload] bound to [None] the handler itself raises. *)
Lemma except_handler_raises w raw e cid org self :
  except_handler json_dumps w raw e (Frame cid org (Some None)) self
  = (Raised (AttributeError "'NoneType' object has no attribute 'get'"), self).
Proof. reflexivity. Qed.

Lemma process_request_no_tenant w raw self :
  truthy (resolve_organization (default ∅ (rq_headers raw))) = false →
  ∃ entry,
    process_request json_dumps w raw self
    = (Returned
         (FailureShape
            (normalize_error (w_uuid_error w) (w_now_error w)
               (MiddlewareException "Organization ID is required")
               "Request Processing")
            "Request failed middleware processing"),
       set_audit self (audit_middleware self ++ [entry])%list)
    ∧ ae_status_code entry = 400.
Proof.
  intros Hf. unfold process_request. rewrite (try_block_no_tenant _ _ _ Hf).
  rewrite isinstance_middleware_exception.
  edestruct except_handler_audits as (entry & -> & Hs); [|eauto]. done.
Qed.

Lemma process_request_unauthenticated w raw self svc :
  truthy (resolve_organization (default ∅ (rq_headers raw))) = true →
  authenticate_request (auth_middleware self) (default ∅ (rq_headers raw))
  = (Returned None, svc) →
  process_request json_dumps w raw self
  = (Raised (AttributeError "'NoneType' object has no attribute 'get'"),
     set_auth self svc).
Proof.
  intros Ht Ha. unfold process_request.
  rewrite (try_block_unauthenticated _ _ _ _ Ht Ha).
  by rewrite isinstance_middleware_exception, except_handler_raises.
Qed.

Lemma process_request_rate_limited w raw self svc auth_payload rl :
  truthy (resolve_organization (default ∅ (rq_headers raw))) = true →
  authenticate_request (auth_middleware self) (default ∅ (rq_headers raw))
  = (Returned (Some auth_payload), svc) →
  is_rate_limited (rate_limit_middleware self) (w_time w)
    (py_str (tp_user_id auth_payload) ++ ":" ++ default "" (rq_ip_address raw))
  = (true, rl) →
  ∃ entry,
    process_request json_dumps w raw self
    = (Returned
         (FailureShape
            (normalize_error (w_uuid_error w) (w_now_error w)
               (MiddlewareException "Rate limit exceeded") "Request Processing")
            "Request failed middleware processing"),
       set_audit (set_rate_limit (set_auth self svc) rl)
         (audit_middleware self ++ [entry])%list)
    ∧ ae_status_code entry = 400.
Proof.
  intros Ht Ha Hr. unfold process_request.
  rewrite (try_block_rate_limited _ _ _ _ _ _ Ht Ha Hr).
  rewrite isinstance_middleware_exception.
  edestruct except_handler_audits as (entry & -> & Hs); [|eauto]. done.
Qed.

(** The handler returns the failure shape or raises. *)
Lemma except_handler_returns w raw e locals self r self' :
  except_handler json_dumps w raw e locals self = (Returned r, self') →
  r = FailureShape
        (normalize_error (w_uuid_error w) (w_now_error w) e "Request Processing")
        "Request failed middleware processing".
Proof.
  unfold except_handler, log_request. cbn [rd_body default dumps].
  intros H. repeat case_match; by simplify_eq.
Qed.

(** The stages before the idempotency check leave the store alone, and
    a stored key short-circuits the run with the stored context. *)
Lemma try_block_replay w raw self k ctx r self' :
  default ∅ (rq_headers raw) !! "Idempotency-Key" = Some k →
  truthy (Some k) = true →
  check_idempotency (idempotency_middleware self) k = Some ctx →
  try_block json_dumps w raw self = (inl r, self') →
  r = Cached ctx
  ∧ audit_middleware self' = audit_middleware self
  ∧ idempotency_middleware self' = idempotency_middleware self.
Proof.
  intros Hk Ht Hc. unfold try_block. cbn [rc_headers build_context].
  rewrite Hk, Ht. cbn [from_option id].
  destruct (negb _); [done|].
  destruct (authenticate_request _ _) as [[[p|]|e] svc]; [|done..].
  destruct (is_rate_limited _ _ _) as [[] rl]; [done|].
  cbn [idempotency_middleware set_rate_limit set_auth]. rewrite Hc.
  intros [= <- <-]. done.
Qed.

(** A run that returns the success shape went through every stage. *)
Lemma try_block_success w raw self ctx msg self' :
  try_block json_dumps w raw self = (inl (SuccessShape ctx msg), self') →
  ec_request ctx = build_context w raw
  ∧ ec_locale ctx = detect_locale (default ∅ (rq_headers raw))
  ∧ ec_timezone ctx = detect_timezone (default ∅ (rq_headers raw))
  ∧ (∀ k, default ∅ (rq_headers raw) !! "Idempotency-Key" = Some k →
          truthy (Some k) = true →
          check_idempotency (idempotency_middleware self') k = Some ctx)
  ∧ ∃ entry, audit_middleware self' = (audit_middleware self ++ [entry])%list.
Proof.
  unfold try_block. cbn [rc_headers build_context].
  destruct (negb _); [done|].
  destruct (authenticate_request _ _) as [[[p|]|e] svc]; [|done..].
  destruct (is_rate_limited _ _ _) as [[] rl]; [done|].
  cbn [idempotency_middleware audit_middleware set_rate_limit set_auth].
  destruct (if truthy _ then _ else _) as [cached|] eqn:Hcache; [done|].
  unfold log_request. cbn [rd_body default].
  destruct (dumps _ _) as [dumped|e]; [|done].
  intros [= <- <- <-]. split_and!; [done..| |].
  - intros k Hk Ht. rewrite Hk, Ht.
    cbn [from_option id set_idempotency idempotency_middleware].
    apply check_after_store.
  - destruct (truthy _); eexists; reflexivity.
Qed.

(** The handler writes to the audit log only. *)
Lemma except_handler_rate_limit w raw e locals self :
  rate_limit_middleware (except_handler json_dumps w raw e locals self).2
  = rate_limit_middleware self.
Proof.
  unfold except_handler, log_request. cbn [rd_body default dumps].
  by repeat case_match.
Qed.

(** The limiter after a run: untouched unless authentication returned a
    payload, and then the state one check under [user_id:ip] leaves. *)
Lemma process_request_rate_limit w raw self :
  rate_limit_middleware (process_request json_dumps w raw self).2
  = if truthy (resolve_organization (default ∅ (rq_headers raw))) then
      match (authenticate_request (auth_middleware self)
               (default ∅ (rq_headers raw))).1 with
      | Returned (Some auth_payload) =>
          (is_rate_limited (rate_limit_middleware self) (w_time w)
             (py_str (tp_user_id auth_payload) ++ ":"
              ++ default "" (rq_ip_address raw))).2
      | _ => rate_limit_middleware self
      end
    else rate_limit_middleware self.
Proof.
  unfold process_request, try_block.
  cbn [rc_headers rc_ip_address build_context].
  destruct (truthy _); cbn [negb];
    [|by rewrite isinstance_middleware_exception, except_handler_rate_limit].
  destruct (authenticate_request _ _) as [[[p|]|e] svc]; cbn [fst].
  - cbn [set_auth rate_limit_middleware].
    destruct (is_rate_limited _ _ _) as [limited rl]. cbn [snd].
    destruct limited.
    { by rewrite isinstance_middleware_exception, except_handler_rate_limit. }
    destruct (if truthy _ then _ else _); [done|].
    unfold log_request. cbn [rd_body default].
    destruct (dumps _ _).
    + by destruct (truthy _).
    + by destruct (isinstance _ _); [rewrite except_handler_rate_limit|].
  - by rewrite isinstance_middleware_exception, except_handler_rate_limit.
  - by destruct (isinstance _ _); [rewrite except_handler_rate_limit|].
Qed.

End PipelineFacts.

(** ** Claims about [process_request] *)

Section Claims.
Context {Body : Type}.
Variable json_dumps : Body → outcome string.

#[local] Abbreviation processor := (request_processor (Body := Body)).
#[local] Abbreviation request := (raw_request (Body := Body)).

Implicit Types (w : world) (raw : request) (self : processor).

(** C1, amended: the three stage failures of the pipeline are raised as
    [MiddlewareException], which the normaliser maps to category
    [middleware_error] with status 400. A request without a resolvable tenant
    and a request rejected by the rate limiter both return the failure shape
    with that category and status 400; the exception of a failed
    authentication normalises to the same category and status. The normaliser
    tests the exception's class in the order [MiddlewareException],
    [ValueError], [PermissionError], [FileNotFoundError] and the first class
    it is an instance of decides: [middleware_error] with 400,
    [validation_error] with 400, [authorization_error] with 403,
    [resource_not_found] with 404; an exception of none of these classes gets
    [system_error] with 500. Plain instances of the four classes get exactly
    their row, and 401 and 429 are never produced. *)
Theorem stage_failures_have_status_400 w raw self :
  (∀ u t e c,
     (isinstance e "MiddlewareException" = true →
      category (normalize_error u t e c) = "middleware_error"
      ∧ status_code (normalize_error u t e c) = 400)
     ∧ (isinstance e "MiddlewareException" = false →
        isinstance e "ValueError" = true →
        category (normalize_error u t e c) = "validation_error"
        ∧ status_code (normalize_error u t e c) = 400)
     ∧ (isinstance e "MiddlewareException" = false →
        isinstance e "ValueError" = false →
        isinstance e "PermissionError" = true →
        category (normalize_error u t e c) = "authorization_error"
        ∧ status_code (normalize_error u t e c) = 403)
     ∧ (isinstance e "MiddlewareException" = false →
        isinstance e "ValueError" = false →
        isinstance e "PermissionError" = false →
        isinstance e "FileNotFoundError" = true →
        category (normalize_error u t e c) = "resource_not_found"
        ∧ status_code (normalize_error u t e c) = 404)
     ∧ (isinstance e "MiddlewareException" = false →
        isinstance e "ValueError" = false →
        isinstance e "PermissionError" = false →
        isinstance e "FileNotFoundError" = false →
        category (normalize_error u t e c) = "system_error"
        ∧ status_code (normalize_error u t e c) = 500)
     ∧ status_code (normalize_error u t e c) ≠ 401
     ∧ status_code (normalize_error u t e c) ≠ 429)
  ∧ (∀ u t msg c,
       (category (normalize_error u t (MiddlewareException msg) c),
        status_code (normalize_error u t (MiddlewareException msg) c))
       = ("middleware_error", 400)
       ∧ (category (normalize_error u t (ValueError msg) c),
          status_code (normalize_error u t (ValueError msg) c))
         = ("validation_error", 400)
       ∧ (category (normalize_error u t (PermissionError msg) c),
          status_code (normalize_error u t (PermissionError msg) c))
         = ("authorization_error", 403)
       ∧ (category (normalize_error u t (FileNotFoundError msg) c),
          status_code (normalize_error u t (FileNotFoundError msg) c))
         = ("resource_not_found", 404))
  ∧ (∀ u t e c,
       (category (normalize_error u t e c), status_code (normalize_error u t e c))
       ∈ [("middleware_error", 400); ("validation_error", 400);
          ("authorization_error", 403); ("resource_not_found", 404);
          ("system_error", 500)])
  ∧ (truthy (resolve_organization (default ∅ (rq_headers raw))) = false →
     ∃ err,
       (process_request json_dumps w raw self).1
       = Returned (FailureShape err "Request failed middleware processing")
       ∧ err_message err = "Organization ID is required"
       ∧ category err = "middleware_error" ∧ status_code err = 400)
  ∧ (truthy (resolve_organization (default ∅ (rq_headers raw))) = true →
     (authenticate_request (auth_middleware self) (default ∅ (rq_headers raw))).1
     = Returned None →
     ∃ e locals,
       (try_block json_dumps w raw self).1 = inr (e, locals)
       ∧ e = MiddlewareException "Authentication required"
       ∧ category
           (normalize_error (w_uuid_error w) (w_now_error w) e "Request Processing")
         = "middleware_error"
       ∧ status_code
           (normalize_error (w_uuid_error w) (w_now_error w) e "Request Processing")
         = 400)
  ∧ (truthy (resolve_organization (default ∅ (rq_headers raw))) = true →
     ∀ auth_payload,
       (authenticate_request (auth_middleware self) (default ∅ (rq_headers raw))).1
       = Returned (Some auth_payload) →
       (is_rate_limited (rate_limit_middleware self) (w_time w)
          (py_str (tp_user_id auth_payload) ++ ":" ++ default "" (rq_ip_address raw))).1
       = true →
       ∃ err,
         (process_request json_dumps w raw self).1
         = Returned (FailureShape err "Request failed middleware processing")
         ∧ err_message err = "Rate limit exceeded"
         ∧ category err = "middleware_error" ∧ status_code err = 400).
Proof.
  split_and!.
  - intros u t e c.
    destruct (normalize_error_table u t e c) as (? & ? & ? & ? & ?).
    destruct (normalize_error_codes u t e c) as (? & ? & _).
    by split_and!.
  - intros u t msg c.
    destruct (normalize_error_builtin u t msg c) as (? & ? & ?).
    destruct (normalize_middleware_exception u t msg c) as (Hc & Hs & _).
    rewrite Hc, Hs. by split_and!.
  - intros u t e c. rewrite normalize_error_categorize. apply categorize_cases.
  - intros Hf.
    destruct (process_request_no_tenant json_dumps w raw self Hf) as (entry & -> & _).
    eexists. split; [reflexivity|].
    by destruct (normalize_middleware_exception (w_uuid_error w) (w_now_error w)
                   "Organization ID is required" "Request Processing") as (? & ? & ? & ?).
  - intros Ht Ha.
    destruct (authenticate_request _ _) as [a svc] eqn:Hauth. cbn [fst] in Ha. subst a.
    rewrite (try_block_unauthenticated json_dumps w raw self svc Ht Hauth).
    eexists _, _. split; [reflexivity|]. split; [reflexivity|].
    by destruct (normalize_middleware_exception (w_uuid_error w) (w_now_error w)
                   "Authentication required" "Request Processing") as (? & ? & ? & ?).
  - intros Ht p Ha Hr.
    destruct (authenticate_request _ _) as [a svc] eqn:Hauth. cbn [fst] in Ha. subst a.
    destruct (is_rate_limited _ _ _) as [b rl] eqn:Hrl. cbn [fst] in Hr. subst b.
    destruct (process_request_rate_limited json_dumps w raw self svc p rl Ht Hauth Hrl)
      as (entry & -> & _).
    eexists. split; [reflexivity|].
    by destruct (normalize_middleware_exception (w_uuid_error w) (w_now_error w)
                   "Rate limit exceeded" "Request Processing") as (? & ? & ? & ?).
Qed.

(** C2 is contradicted by the code. When a first call carrying
    [Idempotency-Key] [k] returns the success shape with context [ctx], what
    is stored under [k] is [ctx] alone; a later call carrying [k] that gets
    past the rate limiter returns that bare context, and whatever the later
    call does, its result is never the value the first call returned. *)
Theorem replay_differs_from_first_result w1 w2 raw1 raw2 self self1 k ctx msg :
  default ∅ (rq_headers raw1) !! "Idempotency-Key" = Some k →
  default ∅ (rq_headers raw2) !! "Idempotency-Key" = Some k →
  truthy (Some k) = true →
  process_request json_dumps w1 raw1 self = (Returned (SuccessShape ctx msg), self1) →
  check_idempotency (idempotency_middleware self1) k = Some ctx
  ∧ (∀ r2 self2, try_block json_dumps w2 raw2 self1 = (inl r2, self2) → r2 = Cached ctx)
  ∧ (process_request json_dumps w2 raw2 self1).1 ≠ Returned (SuccessShape ctx msg).
Proof.
  intros Hk1 Hk2 Ht H1.
  assert (Hstored : check_idempotency (idempotency_middleware self1) k = Some ctx).
  { unfold process_request in H1.
    destruct (try_block json_dumps w1 raw1 self) as [[r|[e locals]] s] eqn:Htry.
    - injection H1 as -> ->.
      by apply (try_block_success json_dumps w1 raw1 self ctx msg self1 Htry).
    - destruct (isinstance e "Exception"); [|done].
      destruct (except_handler _ _ _ _ _ _) as [[r|e'] s'] eqn:Hh; [|done].
      apply except_handler_returns in Hh. by simplify_eq. }
  split_and!; [done| |].
  - intros r2 self2 Htry.
    by destruct (try_block_replay json_dumps w2 raw2 self1 k ctx r2 self2 Hk2 Ht Hstored Htry).
  - unfold process_request.
    destruct (try_block json_dumps w2 raw2 self1) as [[r|[e locals]] s] eqn:Htry.
    + destruct (try_block_replay json_dumps w2 raw2 self1 k ctx r s Hk2 Ht Hstored Htry)
        as (-> & _). done.
    + destruct (isinstance e "Exception"); [|done].
      destruct (except_handler _ _ _ _ _ _) as [[r|e'] s'] eqn:Hh; [|done].
      apply except_handler_returns in Hh. by subst r.
Qed.

(** C4 is contradicted by the code. When the tenant is resolved and the
    authentication middleware returns no principal, the handler evaluates
    [auth_payload.get] on [None]: the call raises [AttributeError] and the
    audit log is left as it was, with no entry for the request. *)
Theorem unauthenticated_request_not_audited w raw self :
  truthy (resolve_organization (default ∅ (rq_headers raw))) = true →
  (authenticate_request (auth_middleware self) (default ∅ (rq_headers raw))).1
  = Returned None →
  (process_request json_dumps w raw self).1
  = Raised (AttributeError "'NoneType' object has no attribute 'get'")
  ∧ audit_middleware (process_request json_dumps w raw self).2 = audit_middleware self.
Proof.
  intros Ht Ha.
  destruct (authenticate_request _ _) as [a svc] eqn:Hauth. cbn [fst] in Ha. subst a.
  by rewrite (process_request_unauthenticated json_dumps w raw self svc Ht Hauth).
Qed.

(** C5, amended: a request whose headers hold neither [X-Organization-ID]
    nor [X-Tenant-ID] gets the failure shape of the tenant stage: the
    [MiddlewareException] with message [Organization ID is required],
    category [middleware_error] and status 400. The failure is raised before
    [auth_payload] is bound and the authentication service is left untouched:
    no call of [validate_token] is made. The normaliser has no category
    named [MissingTenant] for any exception. *)
Theorem missing_tenant_fails_before_authentication w raw self :
  default ∅ (rq_headers raw) !! "X-Organization-ID" = None →
  default ∅ (rq_headers raw) !! "X-Tenant-ID" = None →
  (∃ err,
     (process_request json_dumps w raw self).1
     = Returned (FailureShape err "Request failed middleware processing")
     ∧ err_type err = "MiddlewareException"
     ∧ err_message err = "Organization ID is required"
     ∧ category err = "middleware_error" ∧ status_code err = 400)
  ∧ (∃ locals,
       (try_block json_dumps w raw self).1
       = inr (MiddlewareException "Organization ID is required", locals)
       ∧ l_auth_payload locals = None)
  ∧ auth_middleware (process_request json_dumps w raw self).2 = auth_middleware self
  ∧ validate_calls (auth_middleware (process_request json_dumps w raw self).2)
    = validate_calls (auth_middleware self)
  ∧ ∀ u t e c, category (normalize_error u t e c) ≠ "MissingTenant".
Proof.
  intros H1 H2.
  assert (Hf : truthy (resolve_organization (default ∅ (rq_headers raw))) = false)
    by (by rewrite (resolve_organization_absent _ H1 H2)).
  rewrite (try_block_no_tenant json_dumps w raw self Hf).
  destruct (process_request_no_tenant json_dumps w raw self Hf) as (entry & -> & _).
  split_and!; [|by eexists|done..|].
  - eexists. split; [reflexivity|].
    by destruct (normalize_middleware_exception (w_uuid_error w) (w_now_error w)
                   "Organization ID is required" "Request Processing") as (? & ? & ? & ?).
  - intros u t e c. by destruct (normalize_error_codes u t e c) as (_ & _ & ?).
Qed.

(** C6, amended: when the tenant is resolved and authentication yields no
    principal, the authentication stage fails with the [MiddlewareException]
    [Authentication required] and the rate limiter is not consulted: its
    whole state is unchanged, so no record is created or incremented, neither
    under the client IP nor under a [user_id:ip] key. Rate limiting runs only
    after a successful authentication and is keyed by [user_id:ip]: when
    authentication returns a payload, the limiter after the call is the one
    a single check under the key [user_id:ip] leaves, whatever the later
    stages do; in every run where the tenant is missing or authentication
    returns no payload (it returns [None] or raises) the limiter is
    unchanged. *)
Theorem unauthenticated_request_not_rate_limited w raw self :
  (truthy (resolve_organization (default ∅ (rq_headers raw))) = true →
   (authenticate_request (auth_middleware self) (default ∅ (rq_headers raw))).1
   = Returned None →
   (∃ locals,
      (try_block json_dumps w raw self).1
      = inr (MiddlewareException "Authentication required", locals))
   ∧ rate_limit_middleware (process_request json_dumps w raw self).2
     = rate_limit_middleware self
   ∧ ∀ key, bucket (rate_limit_middleware (process_request json_dumps w raw self).2) key
            = bucket (rate_limit_middleware self) key)
  ∧ (truthy (resolve_organization (default ∅ (rq_headers raw))) = true →
     ∀ auth_payload,
       (authenticate_request (auth_middleware self) (default ∅ (rq_headers raw))).1
       = Returned (Some auth_payload) →
       rate_limit_middleware (process_request json_dumps w raw self).2
       = (is_rate_limited (rate_limit_middleware self) (w_time w)
            (py_str (tp_user_id auth_payload) ++ ":"
             ++ default "" (rq_ip_address raw))).2)
  ∧ (truthy (resolve_organization (default ∅ (rq_headers raw))) = false
     ∨ (∀ auth_payload,
          (authenticate_request (auth_middleware self) (default ∅ (rq_headers raw))).1
          ≠ Returned (Some auth_payload)) →
     rate_limit_middleware (process_request json_dumps w raw self).2
     = rate_limit_middleware self).
Proof.
  split_and!.
  - intros Ht Ha.
    destruct (authenticate_request _ _) as [a svc] eqn:Hauth. cbn [fst] in Ha. subst a.
    rewrite (process_request_unauthenticated json_dumps w raw self svc Ht Hauth).
    rewrite (try_block_unauthenticated json_dumps w raw self svc Ht Hauth).
    split_and!; [by eexists|done..].
  - intros Ht p Ha. by rewrite process_request_rate_limit, Ht, Ha.
  - intros H. rewrite process_request_rate_limit.
    destruct (truthy _); [|done].
    destruct H as [H|H]; [done|].
    destruct (authenticate_request _ _).1 as [[p|]|e]; [|done..].
    by destruct (H p).
Qed.

(** C10, amended: without an [Accept-Language] header [detect_locale] gives
    [en-US], without an [X-Timezone] header [detect_timezone] gives [UTC], and
    a header that is present is returned unchanged, also when its value is the
    empty string. A success shape carries exactly these two values, so its
    locale (timezone) is non-empty unless the request sent the header with an
    empty value. *)
Theorem locale_timezone_detection (h : gmap string string) :
  (h !! "Accept-Language" = None → detect_locale h = "en-US")
  ∧ (h !! "X-Timezone" = None → detect_timezone h = "UTC")
  ∧ (∀ v, h !! "Accept-Language" = Some v → detect_locale h = v)
  ∧ (∀ v, h !! "X-Timezone" = Some v → detect_timezone h = v)
  ∧ (∀ w raw self ctx msg self',
       default ∅ (rq_headers raw) = h →
       process_request json_dumps w raw self = (Returned (SuccessShape ctx msg), self') →
       ec_locale ctx = detect_locale h ∧ ec_timezone ctx = detect_timezone h
       ∧ (h !! "Accept-Language" ≠ Some "" → ec_locale ctx ≠ "")
       ∧ (h !! "X-Timezone" ≠ Some "" → ec_timezone ctx ≠ "")).
Proof.
  unfold detect_locale, detect_timezone. split_and!.
  - by intros ->.
  - by intros ->.
  - by intros v ->.
  - by intros v ->.
  - intros w raw self ctx msg self' <- H.
    assert (Hctx : ec_locale ctx = detect_locale (default ∅ (rq_headers raw))
                   ∧ ec_timezone ctx = detect_timezone (default ∅ (rq_headers raw))).
    { unfold process_request in H.
      destruct (try_block json_dumps w raw self) as [[r|[e locals]] s] eqn:Htry.
      - injection H as -> ->.
        by destruct (try_block_success json_dumps w raw self ctx msg self' Htry)
          as (_ & ? & ? & _).
      - destruct (isinstance e "Exception"); [|done].
        destruct (except_handler _ _ _ _ _ _) as [[r|e'] s'] eqn:Hh; [|done].
        apply except_handler_returns in Hh. by simplify_eq. }
    destruct Hctx as [-> ->]. unfold detect_locale, detect_timezone.
    split_and!; [done..| |].
    + destruct (_ !! "Accept-Language") as [v|]; [|done]. cbn. congruence.
    + destruct (_ !! "X-Timezone") as [v|]; [|done]. cbn. congruence.
Qed.

End Claims.

(** ** Concrete runs *)

(** C1, as stated, fails: the 101st call of one client within the window is
    rejected by the rate limiter and the error returned has status 400, not 429. *)
Lemma rate_limit_rejection_is_not_429 :
  ¬ (∀ (w : world) (raw : raw_request) (self : request_processor) auth_payload,
       truthy (resolve_organization (default ∅ (rq_headers raw))) = true →
       (authenticate_request (auth_middleware self) (default ∅ (rq_headers raw))).1
       = Returned (Some auth_payload) →
       (is_rate_limited (rate_limit_middleware self) (w_time w)
          (py_str (tp_user_id auth_payload) ++ ":" ++ default "" (rq_ip_address raw))).1
       = true →
       ∃ err msg,
         (process_request Sample.json_dumps w raw self).1
         = Returned (FailureShape err msg)
         ∧ status_code err = 429).
Proof.
  intros H.
  destruct (H (Sample.clock 200) Sample.plain Sample.saturated Sample.learner)
    as (err & msg & Hrun & Hcode); [by vm_compute..|].
  vm_compute in Hrun. injection Hrun as <- _. by vm_compute in Hcode.
Qed.

Lemma stage_failures_have_status_400_witness :
  (category (normalize_error "deadbeef" 0 (PermissionError "denied") "ctx")
   = "authorization_error"
   ∧ status_code (normalize_error "deadbeef" 0 (PermissionError "denied") "ctx") = 403)
  ∧ (category (normalize_error "deadbeef" 0 (FileNotFoundError "gone") "ctx")
     = "resource_not_found"
     ∧ status_code (normalize_error "deadbeef" 0 (FileNotFoundError "gone") "ctx") = 404)
  ∧ (category (normalize_error "deadbeef" 0 (ValueError "bad") "ctx")
     = "validation_error"
     ∧ status_code (normalize_error "deadbeef" 0 (ValueError "bad") "ctx") = 400)
  ∧ (category (normalize_error "deadbeef" 0 Sample.key_error "ctx") = "system_error"
     ∧ status_code (normalize_error "deadbeef" 0 Sample.key_error "ctx") = 500)
  ∧ (∃ err,
       (process_request Sample.json_dumps (Sample.clock 0) Sample.no_tenant
          Sample.fresh).1
       = Returned (FailureShape err "Request failed middleware processing")
       ∧ err_message err = "Organization ID is required"
       ∧ category err = "middleware_error" ∧ status_code err = 400)
  ∧ (∃ e locals,
       (try_block Sample.json_dumps (Sample.clock 0) Sample.bad_token Sample.fresh).1
       = inr (e, locals)
       ∧ e = MiddlewareException "Authentication required"
       ∧ category (normalize_error "deadbeef" 0 e "Request Processing")
         = "middleware_error"
       ∧ status_code (normalize_error "deadbeef" 0 e "Request Processing") = 400)
  ∧ (∃ err,
       (process_request Sample.json_dumps (Sample.clock 200) Sample.plain
          Sample.saturated).1
       = Returned (FailureShape err "Request failed middleware processing")
       ∧ err_message err = "Rate limit exceeded"
       ∧ category err = "middleware_error" ∧ status_code err = 400).
Proof.
  destruct (stage_failures_have_status_400 Sample.json_dumps
              (Sample.clock 0) Sample.no_tenant Sample.fresh)
    as (Htable & _ & _ & Htenant & _ & _).
  destruct (stage_failures_have_status_400 Sample.json_dumps
              (Sample.clock 0) Sample.bad_token Sample.fresh)
    as (_ & _ & _ & _ & Hauth & _).
  destruct (stage_failures_have_status_400 Sample.json_dumps
              (Sample.clock 200) Sample.plain Sample.saturated)
    as (_ & _ & _ & _ & _ & Hlimit).
  destruct (Htable "deadbeef" 0%Q (PermissionError "denied") "ctx")
    as (_ & _ & Hpermission & _).
  destruct (Htable "deadbeef" 0%Q (FileNotFoundError "gone") "ctx")
    as (_ & _ & _ & Hnotfound & _).
  destruct (Htable "deadbeef" 0%Q (ValueError "bad") "ctx") as (_ & Hvalue & _).
  destruct (Htable "deadbeef" 0%Q Sample.key_error "ctx")
    as (_ & _ & _ & _ & Hother & _).
  split; [apply Hpermission; reflexivity|].
  split; [apply Hnotfound; reflexivity|].
  split; [apply Hvalue; reflexivity|].
  split; [apply Hother; reflexivity|].
  split; [apply Htenant; vm_compute; reflexivity|].
  split; [apply Hauth; vm_compute; reflexivity|].
  apply Hlimit with Sample.learner; vm_compute; reflexivity.
Defined.

Lemma replay_differs_from_first_result_witness :
  ∃ ctx msg,
    Sample.first_call.1 = Returned (SuccessShape ctx msg)
    ∧ Sample.second_call.1 = Returned (Cached ctx)
    ∧ Sample.second_call.1 ≠ Sample.first_call.1.
Proof.
  assert (∃ ctx msg,
            Sample.first_call = (Returned (SuccessShape ctx msg), Sample.first_call.2))
    as (ctx & msg & Hfirst).
  { vm_compute. by eexists _, _. }
  destruct (replay_differs_from_first_result Sample.json_dumps
              (Sample.clock 0) (Sample.clock 1)
              (Sample.keyed Sample.PyNone) (Sample.keyed Sample.PyTrue)
              Sample.fresh Sample.first_call.2 "k1" ctx msg)
    as (Hstored & Htry & Hne); [reflexivity..|exact Hfirst|].
  assert (H1 : Sample.first_call.1 = Returned (SuccessShape ctx msg))
    by exact (f_equal fst Hfirst).
  exists ctx, msg. split_and!; [exact H1| |by rewrite H1].
  unfold Sample.second_call, process_request.
  destruct (try_block _ (Sample.clock 1) _ _) as [[r2|[e locals]] s2] eqn:E.
  - by rewrite (Htry r2 s2 eq_refl).
  - exfalso. vm_compute in E. discriminate E.
Defined.

Lemma unauthenticated_request_not_audited_witness :
  (process_request Sample.json_dumps (Sample.clock 0) Sample.no_credentials
     Sample.fresh).1
  = Raised (AttributeError "'NoneType' object has no attribute 'get'")
  ∧ audit_middleware
      (process_request Sample.json_dumps (Sample.clock 0) Sample.no_credentials
         Sample.fresh).2
    = [].
Proof.
  apply (unauthenticated_request_not_audited Sample.json_dumps
           (Sample.clock 0) Sample.no_credentials Sample.fresh);
    vm_compute; reflexivity.
Defined.

(** C5, as stated, fails: the error returned for a request without a tenant
    header does not carry the category [MissingTenant]. *)
Lemma missing_tenant_category_is_not_MissingTenant :
  ¬ (∀ (w : world) (raw : raw_request) (self : request_processor),
       default ∅ (rq_headers raw) !! "X-Organization-ID" = None →
       default ∅ (rq_headers raw) !! "X-Tenant-ID" = None →
       ∃ err msg,
         (process_request Sample.json_dumps w raw self).1
         = Returned (FailureShape err msg)
         ∧ category err = "MissingTenant").
Proof.
  intros H.
  destruct (H (Sample.clock 0) Sample.no_tenant Sample.fresh)
    as (err & msg & Hrun & Hcat); [reflexivity..|].
  vm_compute in Hrun. injection Hrun as <- _. by vm_compute in Hcat.
Qed.

Lemma missing_tenant_fails_before_authentication_witness :
  (∃ err,
     (process_request Sample.json_dumps (Sample.clock 0) Sample.no_tenant Sample.fresh).1
     = Returned (FailureShape err "Request failed middleware processing")
     ∧ err_type err = "MiddlewareException"
     ∧ err_message err = "Organization ID is required"
     ∧ category err = "middleware_error" ∧ status_code err = 400)
  ∧ validate_calls
      (auth_middleware
         (process_request Sample.json_dumps (Sample.clock 0) Sample.no_tenant
            Sample.fresh).2)
    = [].
Proof.
  destruct (missing_tenant_fails_before_authentication Sample.json_dumps
              (Sample.clock 0) Sample.no_tenant Sample.fresh)
    as (Herr & _ & _ & Hcalls & _); [reflexivity..|].
  split; [exact Herr | exact Hcalls].
Defined.

(** C6, as stated, fails: after a call with a rejected bearer token from
    address 1.2.3.4 the rate limiter holds no record for that address. *)
Lemma failed_authentication_not_counted_per_ip :
  ¬ (∀ (w : world) (raw : raw_request) (self : request_processor),
       truthy (resolve_organization (default ∅ (rq_headers raw))) = true →
       (authenticate_request (auth_middleware self) (default ∅ (rq_headers raw))).1
       = Returned None →
       ∃ count timestamp,
         bucket (rate_limit_middleware (process_request Sample.json_dumps w raw self).2)
           (default "" (rq_ip_address raw))
         = Some (count, timestamp)).
Proof.
  intros H.
  destruct (H (Sample.clock 0) Sample.bad_token Sample.fresh)
    as (count & timestamp & Hb); [by vm_compute..|].
  vm_compute in Hb. discriminate Hb.
Qed.

Lemma unauthenticated_request_not_rate_limited_witness :
  rate_limit_middleware
    (process_request Sample.json_dumps (Sample.clock 0) Sample.bad_token
       Sample.saturated).2
  = rate_limit_middleware Sample.saturated
  ∧ bucket
      (rate_limit_middleware
         (process_request Sample.json_dumps (Sample.clock 0) Sample.bad_token
            Sample.saturated).2)
      "1.2.3.4"
    = None
  ∧ rate_limit_middleware
      (process_request Sample.json_dumps (Sample.clock 0) Sample.plain Sample.fresh).2
    = (is_rate_limited (rate_limit_middleware Sample.fresh) 0 "u1:1.2.3.4").2
  ∧ bucket
      (rate_limit_middleware
         (process_request Sample.json_dumps (Sample.clock 0) Sample.plain
            Sample.fresh).2)
      "u1:1.2.3.4"
    = Some (1, 0%Q)
  ∧ rate_limit_middleware
      (process_request Sample.json_dumps (Sample.clock 0) Sample.no_tenant
         Sample.saturated).2
    = rate_limit_middleware Sample.saturated.
Proof.
  destruct (unauthenticated_request_not_rate_limited Sample.json_dumps
              (Sample.clock 0) Sample.bad_token Sample.saturated)
    as (Hnone & _ & _).
  destruct Hnone as (_ & Hrl & Hb); [vm_compute; reflexivity..|].
  destruct (unauthenticated_request_not_rate_limited Sample.json_dumps
              (Sample.clock 0) Sample.plain Sample.fresh)
    as (_ & Hkey & _).
  specialize (Hkey ltac:(vm_compute; reflexivity) Sample.learner
                ltac:(vm_compute; reflexivity)).
  destruct (unauthenticated_request_not_rate_limited Sample.json_dumps
              (Sample.clock 0) Sample.no_tenant Sample.saturated)
    as (_ & _ & Hframe).
  specialize (Hframe ltac:(left; vm_compute; reflexivity)).
  split_and!; [exact Hrl| |exact Hkey| |exact Hframe].
  - rewrite Hb. vm_compute. reflexivity.
  - rewrite Hkey. vm_compute. reflexivity.
Defined.

(** C10, as stated, fails: a request that sends [Accept-Language] with an
    empty value succeeds with an empty locale. *)
Lemma empty_header_gives_empty_locale :
  ¬ (∀ (w : world) (raw : raw_request) (self : request_processor) ctx msg self',
       process_request Sample.json_dumps w raw self
       = (Returned (SuccessShape ctx msg), self') →
       ec_locale ctx ≠ "" ∧ ec_timezone ctx ≠ "").
Proof.
  intros H.
  assert (∃ ctx msg self',
            process_request Sample.json_dumps (Sample.clock 0) Sample.empty_language
              Sample.fresh
            = (Returned (SuccessShape ctx msg), self')
            ∧ ec_locale ctx = "")
    as (ctx & msg & self' & Hrun & Hl).
  { vm_compute. by eexists _, _, _. }
  by destruct (H _ _ _ _ _ _ Hrun).
Qed.

Lemma locale_timezone_detection_witness :
  detect_locale ∅ = "en-US" ∧ detect_timezone ∅ = "UTC"
  ∧ detect_locale {[ "Accept-Language" := "fr-FR" ]} = "fr-FR"
  ∧ detect_timezone {[ "X-Timezone" := "Africa/Algiers" ]} = "Africa/Algiers"
  ∧ ∃ ctx msg,
      (process_request Sample.json_dumps (Sample.clock 0) Sample.plain Sample.fresh).1
      = Returned (SuccessShape ctx msg)
      ∧ ec_locale ctx ≠ "" ∧ ec_timezone ctx ≠ "".
Proof.
  destruct (locale_timezone_detection Sample.json_dumps ∅) as (Hl0 & Ht0 & _).
  destruct (locale_timezone_detection Sample.json_dumps
              {[ "Accept-Language" := "fr-FR" ]}) as (_ & _ & Hl1 & _).
  destruct (locale_timezone_detection Sample.json_dumps
              {[ "X-Timezone" := "Africa/Algiers" ]}) as (_ & _ & _ & Ht1 & _).
  split_and!.
  - apply Hl0. reflexivity.
  - apply Ht0. reflexivity.
  - apply Hl1. reflexivity.
  - apply Ht1. reflexivity.
  - assert (∃ ctx msg self',
              process_request Sample.json_dumps (Sample.clock 0) Sample.plain Sample.fresh
              = (Returned (SuccessShape ctx msg), self'))
      as (ctx & msg & self' & Hrun).
    { vm_compute. by eexists _, _, _. }
    destruct (locale_timezone_detection Sample.json_dumps
                (default ∅ (rq_headers Sample.plain))) as (_ & _ & _ & _ & Hsucc).
    destruct (Hsucc _ _ _ _ _ _ eq_refl Hrun) as (_ & _ & Hl & Ht).
    exists ctx, msg. rewrite Hrun. split_and!; [done|apply Hl|apply Ht]; by vm_compute.
Defined.

(** * Further properties *)

(** ** Rate limiter: records after a check *)

(** Every record found after a check is accounted for: it is the checked
    client's new, incremented or untouched record, or another client's
    live record carried over. *)
Lemma is_rate_limited_records self now k k' c ts :
  bucket (is_rate_limited self now k).2 k' = Some (c, ts) →
  (k' = k
   ∧ ((c = 1 ∧ ts = now)
      ∨ ∃ c0 ts0,
          bucket self k = Some (c0, ts0)
          ∧ (now - inject_Z (window_seconds self) < ts0)%Q
          ∧ ((c0 < max_requests self ∧ c = c0 + 1 ∧ ts = now)
             ∨ (max_requests self ≤ c0 ∧ c = c0 ∧ ts = ts0))))
  ∨ (k' ≠ k ∧ bucket self k' = Some (c, ts)
     ∧ (now - inject_Z (window_seconds self) < ts)%Q).
Proof.
  unfold is_rate_limited, bucket.
  set (counts := filter _ (request_counts self)).
  destruct (counts !! k) as [[c0 ts0]|] eqn:Hk.
  - apply map_lookup_filter_Some in Hk as [Hk Hlive]. simpl in Hlive.
    destruct (decide _) as [Hlt|Hge].
    + destruct (decide _) as [Hfull|Hbelow]; cbn [snd request_counts].
      * destruct (decide (k' = k)) as [->|Hne].
        -- intros H. apply map_lookup_filter_Some in H as [H _].
           left. split; [done|]. right. exists c0, ts0.
           rewrite Hk in H. injection H as <- <-. eauto 10.
        -- intros H. apply map_lookup_filter_Some in H as [H Hl]. eauto.
      * destruct (decide (k' = k)) as [->|Hne].
        -- rewrite lookup_insert_eq. intros [= <- <-].
           left. split; [done|]. right. exists c0, ts0.
           split_and!; [done..|]. left. split_and!; [lia|done..].
        -- rewrite lookup_insert_ne by done.
           intros H. apply map_lookup_filter_Some in H as [H Hl]. eauto.
    + cbn [snd request_counts]. destruct (decide (k' = k)) as [->|Hne].
      * rewrite lookup_insert_eq. intros [= <- <-]. eauto.
      * rewrite lookup_insert_ne by done.
        intros H. apply map_lookup_filter_Some in H as [H Hl]. eauto.
  - cbn [snd request_counts]. destruct (decide (k' = k)) as [->|Hne].
    + rewrite lookup_insert_eq. intros [= <- <-]. eauto.
    + rewrite lookup_insert_ne by done.
      intros H. apply map_lookup_filter_Some in H as [H Hl]. eauto.
Qed.

(** X1: a check for one client leaves every other client's record as it
    was when that record is younger than the window, and removes it
    otherwise; another client's count is never changed. *)
Theorem other_clients_kept_or_evicted self now k k' :
  k' ≠ k →
  bucket (is_rate_limited self now k).2 k'
  = match bucket self k' with
    | Some (c, ts) =>
        if decide (now - inject_Z (window_seconds self) < ts)%Q then Some (c, ts)
        else None
    | None => None
    end.
Proof.
  intros Hne.
  assert (Hfilter :
    filter (λ kv : string * (Z * Q),
              (now - inject_Z (window_seconds self) < kv.2.2)%Q)
      (request_counts self) !! k'
    = match bucket self k' with
      | Some (c, ts) =>
          if decide (now - inject_Z (window_seconds self) < ts)%Q then Some (c, ts)
          else None
      | None => None
      end).
  { unfold bucket. destruct (request_counts self !! k') as [[c ts]|] eqn:Hk'.
    - destruct (decide _) as [Hl|Hs].
      + by apply map_lookup_filter_Some.
      + apply map_lookup_filter_None. right. intros x Hx Hp.
        rewrite Hk' in Hx. injection Hx as <-. by apply Hs.
    - apply map_lookup_filter_None. by left. }
  rewrite <- Hfilter. unfold is_rate_limited, bucket.
  repeat case_match; cbn [snd request_counts]; by rewrite ?lookup_insert_ne.
Qed.

Lemma other_clients_kept_or_evicted_witness :
  bucket (is_rate_limited (RateLimiter 3 60 {[ "a" := (2, 50%Q); "b" := (3, 10%Q) ]})
            100 "c").2 "a" = Some (2, 50%Q)
  ∧ bucket (is_rate_limited (RateLimiter 3 60 {[ "a" := (2, 50%Q); "b" := (3, 10%Q) ]})
              100 "c").2 "b" = None.
Proof.
  split.
  - rewrite (other_clients_kept_or_evicted _ 100 "c" "a"); [|done]. by vm_compute.
  - rewrite (other_clients_kept_or_evicted _ 100 "c" "b"); [|done]. by vm_compute.
Defined.

(** X2: with a positive window, no record that is a full window old
    survives a check: every record kept has a timestamp younger than
    [window_seconds] at the time of the check. *)
Theorem no_stale_record_after_check self now k k' c ts :
  0 < window_seconds self →
  bucket (is_rate_limited self now k).2 k' = Some (c, ts) →
  (now - inject_Z (window_seconds self) < ts)%Q.
Proof.
  intros Hw H.
  assert (0 < inject_Z (window_seconds self))%Q as HW.
  { change 0%Q with (inject_Z 0). rewrite <- Zlt_Qlt. done. }
  apply is_rate_limited_records in H
    as [(-> & [[_ ->]|(c0 & ts0 & _ & Hl & [(_ & _ & ->)|(_ & _ & ->)])])|(_ & _ & Hl)];
    lra.
Qed.

Lemma no_stale_record_after_check_witness :
  (100 - inject_Z 60 < 50)%Q.
Proof.
  apply (no_stale_record_after_check
           (RateLimiter 3 60 {[ "a" := (2, 50%Q); "b" := (3, 10%Q) ]}) 100 "c" "a" 2 50).
  - reflexivity.
  - by vm_compute.
Defined.

(** ** Rate limiter: the count bound *)

Lemma serve_config self checks :
  max_requests (serve self checks) = max_requests self
  ∧ window_seconds (serve self checks) = window_seconds self.
Proof.
  revert self. induction checks as [|[k now] rest IH]; intros self; [done|].
  cbn [serve]. destruct (IH (is_rate_limited self now k).2) as [-> ->].
  apply is_rate_limited_config.
Qed.

(** X3: starting from an empty limiter, whatever clients check at whatever
    times, every stored count stays between 1 and the larger of
    [max_requests] and 1. *)
Theorem count_never_exceeds_limit max window checks k c ts :
  bucket (serve (RateLimiter max window ∅) checks) k = Some (c, ts) →
  1 ≤ c ≤ Z.max 1 max.
Proof.
  assert (Hgen : ∀ self,
    (∀ k c ts, bucket self k = Some (c, ts) → 1 ≤ c ≤ Z.max 1 (max_requests self)) →
    ∀ k c ts, bucket (serve self checks) k = Some (c, ts) →
              1 ≤ c ≤ Z.max 1 (max_requests self)).
  { induction checks as [|[k0 now] rest IH]; intros self Hinv; [exact Hinv|].
    cbn [serve]. intros k1 c1 ts1 H.
    destruct (is_rate_limited_config self now k0) as [Hm _].
    rewrite <- Hm. apply (IH _) with k1 ts1; [|exact H].
    intros k2 c2 ts2 H2. rewrite Hm.
    apply is_rate_limited_records in H2
      as [(-> & [[-> _]|(c0 & ts0 & Hb & _ & [(Hlt & -> & _)|(_ & -> & _)])])
         |(_ & Hb & _)].
    - lia.
    - apply Hinv in Hb. lia.
    - by apply Hinv in Hb.
    - by apply Hinv in Hb. }
  intros H. apply (Hgen (RateLimiter max window ∅)) with k ts; [|exact H].
  intros k' c' ts' Hb. unfold bucket in Hb. cbn in Hb.
  by rewrite lookup_empty in Hb.
Qed.

Lemma count_never_exceeds_limit_witness : 1 ≤ 2 ≤ Z.max 1 2.
Proof.
  apply (count_never_exceeds_limit 2 60
           [("a", 0%Q); ("b", 1%Q); ("a", 2%Q); ("a", 3%Q); ("a", 4%Q)] "a" 2 2%Q).
  by vm_compute.
Defined.

(** ** Rate limiter: a burst of checks *)

Lemma burst_from_record self k t0 times c ts :
  bucket self k = Some (c, ts) →
  (t0 <= ts)%Q →
  (ts < t0 + inject_Z (window_seconds self))%Q →
  (∀ t, t ∈ times → (t0 <= t)%Q ∧ (t < t0 + inject_Z (window_seconds self))%Q) →
  (admission_checks self k times).1
  = (λ i : nat, bool_decide (max_requests self ≤ c + Z.of_nat i)) <$> seq 0 (length times).
Proof.
  revert self c ts. induction times as [|t rest IH]; intros self c ts Hb Hts Hts' Hall.
  { by rewrite admission_verdicts_nil. }
  rewrite admission_verdicts_cons. cbn [length seq fmap list_fmap].
  assert (Hrest : ∀ t', t' ∈ rest →
            (t0 <= t')%Q ∧ (t' < t0 + inject_Z (window_seconds self))%Q).
  { intros t' Ht'. apply Hall, elem_of_cons. by right. }
  destruct (Hall t) as [Ht0 Ht1]; [apply elem_of_cons; by left|].
  destruct (is_rate_limited_config self t k) as [Hm Hw].
  destruct (decide (max_requests self ≤ c)) as [Hfull|Hbelow].
  - destruct (is_rate_limited_full self t k c ts Hb) as [-> Hb']; [lra|done|].
    rewrite (IH _ c ts Hb'); [|done|by rewrite Hw|by rewrite Hw].
    rewrite Hm. f_equal; [by rewrite bool_decide_true by lia|].
    rewrite <- fmap_S_seq, <- list_fmap_compose.
    apply list_fmap_ext. intros i x _. cbn.
    rewrite !bool_decide_true by lia. done.
  - destruct (is_rate_limited_below self t k c ts Hb) as [-> Hb']; [lra|lia|].
    rewrite (IH _ (c + 1) t Hb'); [|done|by rewrite Hw|by rewrite Hw].
    rewrite Hm. f_equal; [by rewrite bool_decide_false by lia|].
    rewrite <- fmap_S_seq, <- list_fmap_compose.
    apply list_fmap_ext. intros i x _. cbn.
    apply bool_decide_ext. lia.
Qed.

(** X4: for a client without a record and a limit of at least 1, a burst
    of checks that all fall within one window of the first check admits
    the first [max_requests] of them and rejects every later one: check
    number [i] (counting from 0) is rejected exactly when
    [max_requests <= i]. *)
Theorem burst_admits_first_max self k t0 times :
  bucket self k = None →
  1 ≤ max_requests self →
  (∀ t, t ∈ times → (t0 <= t)%Q ∧ (t < t0 + inject_Z (window_seconds self))%Q) →
  (admission_checks self k (t0 :: times)).1
  = (λ i : nat, bool_decide (max_requests self ≤ Z.of_nat i))
      <$> seq 0 (S (length times)).
Proof.
  intros Hb Hmax Hall.
  rewrite admission_verdicts_cons. cbn [seq fmap list_fmap].
  destruct (is_rate_limited_absent self t0 k Hb) as [-> Hb'].
  destruct (is_rate_limited_config self t0 k) as [Hm Hw].
  f_equal; [by rewrite bool_decide_false by lia|].
  destruct times as [|t rest].
  { by rewrite admission_verdicts_nil. }
  rewrite (burst_from_record _ k t0 (t :: rest) 1 t0 Hb');
    [|lra| |by rewrite Hw].
  - rewrite Hm, <- fmap_S_seq, <- list_fmap_compose.
    apply list_fmap_ext. intros i x _. cbn. apply bool_decide_ext. lia.
  - rewrite Hw. destruct (Hall t) as [? ?]; [apply elem_of_cons; by left|]. lra.
Qed.

Lemma burst_admits_first_max_witness :
  (admission_checks (RateLimiter 2 60 ∅) "a" [0; 5; 59; 30; 12]%Q).1
  = [false; false; true; true; true].
Proof.
  rewrite (burst_admits_first_max (RateLimiter 2 60 ∅) "a" 0 [5; 59; 30; 12]%Q).
  - reflexivity.
  - reflexivity.
  - cbn [max_requests]. lia.
  - intros t Ht. cbn [window_seconds].
    repeat (apply elem_of_cons in Ht as [->|Ht]; [split; [by vm_compute|reflexivity]|]).
    by apply elem_of_nil in Ht.
Defined.

(** X5: a client that has no record, or whose record is at least one
    window old, is admitted whatever the limit is, also when
    [max_requests] is 0 or negative, and gets a new record with count 1. *)
Theorem first_check_always_admitted self now k :
  (bucket self k = None
   ∨ ∃ c ts, bucket self k = Some (c, ts)
             ∧ (inject_Z (window_seconds self) <= now - ts)%Q) →
  (is_rate_limited self now k).1 = false
  ∧ bucket (is_rate_limited self now k).2 k = Some (1, now).
Proof.
  intros [Hb|(c & ts & Hb & Hold)].
  - by apply is_rate_limited_absent.
  - by apply (is_rate_limited_expired self now k c ts).
Qed.

Lemma first_check_always_admitted_witness :
  (is_rate_limited (RateLimiter 0 60 {[ "a" := (7, 10%Q) ]}) 70 "a").1 = false
  ∧ bucket (is_rate_limited (RateLimiter 0 60 {[ "a" := (7, 10%Q) ]}) 70 "a").2 "a"
    = Some (1, 70%Q).
Proof.
  apply first_check_always_admitted. right. exists 7, 10%Q.
  split; [reflexivity|]. by vm_compute.
Defined.

(** ** Authentication middleware *)

Lemma substring_whole (s : string) : String.substring 0 (String.length s) s = s.
Proof. induction s as [|a s IH]; [done|]. cbn. by rewrite IH. Qed.

Lemma bearer_prefix token : String.prefix "Bearer " ("Bearer " ++ token) = true.
Proof. simpl. by destruct token. Qed.

Lemma bearer_strip token :
  String.substring 7 (String.length ("Bearer " ++ token) - 7) ("Bearer " ++ token)
  = token.
Proof. simpl. rewrite Nat.sub_0_r. apply substring_whole. Qed.

(** X6: [validate_token] is called only for an [Authorization] header that
    starts with [Bearer ] (capital B, one space); any other header, or
    none, yields no principal without a call. For the header
    [Bearer ] followed by [token], the service is asked exactly once, about
    exactly [token], and its answer is passed on, an empty payload counting
    as no principal. *)
Theorem bearer_token_forwarded svc (h : gmap string string) :
  (String.prefix "Bearer " (default "" (h !! "Authorization")) = false →
   authenticate_request svc h = (Returned None, svc))
  ∧ (∀ token,
       h !! "Authorization" = Some ("Bearer " ++ token) →
       validate_calls (authenticate_request svc h).2 = (validate_calls svc ++ [token])%list
       ∧ validate_token (authenticate_request svc h).2 = validate_token svc
       ∧ (authenticate_request svc h).1
         = match validate_token svc token with
           | Returned (Some p) =>
               if payload_truthy p then Returned (Some p) else Returned None
           | Returned None => Returned None
           | Raised e => Raised e
           end).
Proof.
  split.
  - intros Hp. unfold authenticate_request. rewrite Hp.
    by rewrite orb_true_r.
  - intros token Hh. unfold authenticate_request. rewrite Hh.
    cbn [from_option id]. rewrite bearer_prefix, bearer_strip.
    change (("Bearer " ++ token =? "")%string) with false. cbn [orb negb].
    unfold call_validate_token.
    destruct (validate_token svc token) as [[p|]|e]; [|done..].
    by destruct (payload_truthy p).
Qed.

Lemma bearer_token_forwarded_witness :
  authenticate_request Sample.service {[ "Authorization" := "bearer good-token" ]}
  = (Returned None, Sample.service)
  ∧ validate_calls
      (authenticate_request Sample.service
         {[ "Authorization" := "Bearer good-token" ]}).2
    = ["good-token"].
Proof.
  split.
  - apply bearer_token_forwarded. reflexivity.
  - apply (bearer_token_forwarded Sample.service
             {[ "Authorization" := "Bearer good-token" ]}).
    reflexivity.
Defined.

(** ** The pipeline: what every call does to the shared state *)

Section PipelineEffects.
Context {Body : Type}.
Variable json_dumps : Body → outcome string.

#[local] Abbreviation processor := (request_processor (Body := Body)).
#[local] Abbreviation request := (raw_request (Body := Body)).

Implicit Types (w : world) (raw : request) (self : processor).

(** Case analysis along the stages of [process_request]. *)
Ltac stages :=
  unfold process_request, try_block, except_handler, log_request;
  cbn [rc_headers rc_ip_address rc_correlation_id rc_body rc_method rc_endpoint
       rc_user_agent build_context rd_body rd_correlation_id rd_status_code
       l_auth_payload l_org_id l_correlation_id];
  repeat (case_match; simplify_eq/=).

(** X7: the audit log is append-only: every call, whether it returns or
    raises, keeps all earlier entries in place and adds at most one. *)
Theorem audit_log_append_only w raw self :
  ∃ new_entries,
    audit_middleware (process_request json_dumps w raw self).2
    = (audit_middleware self ++ new_entries)%list
    ∧ (length new_entries ≤ 1)%nat.
Proof.
  stages;
    first [ exists []; split; [by rewrite app_nil_r|cbn; lia]
          | eexists [_]; split; [reflexivity|cbn; lia] ].
Qed.

Lemma truthy_Some (o : option string) :
  truthy o = true → ∃ s, o = Some s ∧ s ≠ "".
Proof.
  destruct o as [s|]; [|done]. cbn. intros H. exists s. split; [done|].
  intros ->. done.
Qed.

(** X8: the pipeline never overwrites a stored idempotency record: every
    key present before a call keeps its value. A call changes the store
    only when it returns the success shape for a request with a non-empty
    [Idempotency-Key] that was not stored yet, and then adds exactly that
    key with the context it returns. *)
Theorem idempotency_store_first_write_kept w raw self :
  (∀ k v, idempotency_middleware self !! k = Some v →
          idempotency_middleware (process_request json_dumps w raw self).2 !! k = Some v)
  ∧ (idempotency_middleware (process_request json_dumps w raw self).2
     = idempotency_middleware self
     ∨ ∃ k ctx msg,
         default ∅ (rq_headers raw) !! "Idempotency-Key" = Some k ∧ k ≠ ""
         ∧ idempotency_middleware self !! k = None
         ∧ (process_request json_dumps w raw self).1 = Returned (SuccessShape ctx msg)
         ∧ idempotency_middleware (process_request json_dumps w raw self).2
           = <[k := ctx]> (idempotency_middleware self)).
Proof.
  assert (Hcases :
    idempotency_middleware (process_request json_dumps w raw self).2
    = idempotency_middleware self
    ∨ ∃ k ctx msg,
        default ∅ (rq_headers raw) !! "Idempotency-Key" = Some k ∧ k ≠ ""
        ∧ idempotency_middleware self !! k = None
        ∧ (process_request json_dumps w raw self).1 = Returned (SuccessShape ctx msg)
        ∧ idempotency_middleware (process_request json_dumps w raw self).2
          = <[k := ctx]> (idempotency_middleware self)).
  { stages; try (by left).
    right.
    match goal with
    | H : truthy ?o = true |- _ => destruct (truthy_Some _ H) as (k & Hk & Hne)
    end.
    rewrite Hk in *. cbn [from_option id] in *.
    eexists k, _, _. split_and!; [done..|]. reflexivity. }
  split; [|exact Hcases].
  intros k v Hkv. destruct Hcases as [->|(k' & ctx & msg & _ & _ & Hnone & _ & ->)]; [done|].
  rewrite lookup_insert_ne; [done|]. intros ->. by rewrite Hnone in Hkv.
Qed.

(** X9: the only exceptions that leave [process_request] are the
    [AttributeError] of the handler after an authentication that yielded no
    principal, and exceptions that are not instances of [Exception] raised
    by [validate_token] or by [json.dumps] on the request body. *)
Theorem escaping_exceptions w raw self e :
  (process_request json_dumps w raw self).1 = Raised e →
  ((authenticate_request (auth_middleware self) (default ∅ (rq_headers raw))).1
   = Returned None
   ∧ e = AttributeError "'NoneType' object has no attribute 'get'")
  ∨ (isinstance e "Exception" = false
     ∧ ((authenticate_request (auth_middleware self) (default ∅ (rq_headers raw))).1
        = Raised e
        ∨ ∃ b, rq_body raw = Some b ∧ json_dumps b = Raised e)).
Proof.
  stages; intros [= <-]; eauto.
  all: right; split; [done|]; right.
  all: destruct (rq_body raw) as [b|]; [|done]; eauto.
Qed.

(** X10: whenever a call returns the failure shape, exactly one audit
    entry was appended, its status code is the status code of the returned
    error, its request size is 2 (the handler logs no body), and no
    idempotency record was written. *)
Theorem failure_audited_with_its_status w raw self err msg :
  (process_request json_dumps w raw self).1 = Returned (FailureShape err msg) →
  msg = "Request failed middleware processing"
  ∧ idempotency_middleware (process_request json_dumps w raw self).2
    = idempotency_middleware self
  ∧ ∃ entry,
      audit_middleware (process_request json_dumps w raw self).2
      = (audit_middleware self ++ [entry])%list
      ∧ ae_status_code entry = status_code err
      ∧ ae_request_size entry = 2%nat.
Proof.
  stages; intros [= <- <-]; (split_and!; [done..|]); eexists; split_and!; reflexivity.
Qed.

(** X11: whenever a call returns the success shape, exactly one audit
    entry was appended; it has status 200, the user, tenant and
    correlation id of the returned context, the action
    [method endpoint], and as request size the length of the serialised
    body. The context is marked authenticated and its tenant is not
    empty. *)
Theorem success_audited_once w raw self ctx msg :
  (process_request json_dumps w raw self).1 = Returned (SuccessShape ctx msg) →
  ec_authenticated ctx = true
  ∧ truthy (ec_org_id ctx) = true
  ∧ ec_request ctx = build_context w raw
  ∧ ∃ entry dumped,
      audit_middleware (process_request json_dumps w raw self).2
      = (audit_middleware self ++ [entry])%list
      ∧ ae_status_code entry = 200
      ∧ ae_user_id entry = ec_user_id ctx
      ∧ ae_org_id entry = ec_org_id ctx
      ∧ ae_correlation_id entry = Some (rc_correlation_id (ec_request ctx))
      ∧ ae_action entry
        = Some (rc_method (ec_request ctx) ++ " " ++ rc_endpoint (ec_request ctx))
      ∧ dumps json_dumps (rc_body (ec_request ctx)) = Returned dumped
      ∧ ae_request_size entry = String.length dumped.
Proof.
  stages; intros [= <- <-]; cbn.
  all: split_and!; [done| |done|].
  all: try (by match goal with H : negb ?b = false |- _ => destruct b end).
  all: eexists _, _; split_and!; try reflexivity; try done.
  all: cbn; by repeat match goal with H : truthy _ = _ |- _ => rewrite H end.
Qed.

(** X12: a replay, that is a call that returns a stored context, is still
    authenticated and rate limited: the token was accepted, the limiter
    admitted the client and its updated state is kept, so the replay counts
    against the client's limit. Nothing else changes: no audit entry is
    added and the idempotency store is as before. *)
Theorem replay_is_rate_limited_not_audited w raw self cached :
  (process_request json_dumps w raw self).1 = Returned (Cached cached) →
  ∃ k auth_payload svc rl,
    default ∅ (rq_headers raw) !! "Idempotency-Key" = Some k
    ∧ check_idempotency (idempotency_middleware self) k = Some cached
    ∧ authenticate_request (auth_middleware self) (default ∅ (rq_headers raw))
      = (Returned (Some auth_payload), svc)
    ∧ is_rate_limited (rate_limit_middleware self) (w_time w)
        (py_str (tp_user_id auth_payload) ++ ":" ++ default "" (rq_ip_address raw))
      = (false, rl)
    ∧ rate_limit_middleware (process_request json_dumps w raw self).2 = rl
    ∧ audit_middleware (process_request json_dumps w raw self).2 = audit_middleware self
    ∧ idempotency_middleware (process_request json_dumps w raw self).2
      = idempotency_middleware self.
Proof.
  stages; intros [= <-].
  match goal with
  | H : truthy ?o = true |- _ => destruct (truthy_Some _ H) as (k & Hk & Hne)
  end.
  rewrite Hk in *. cbn [from_option id] in *.
  eexists k, _, _, _. split_and!; done.
Qed.

(** X13: every audit entry a call appends carries the correlation id of
    the request: the [X-Correlation-ID] header when it is present and not
    empty, the generated id otherwise. *)
Theorem audit_entry_correlation_id w raw self entry :
  audit_middleware (process_request json_dumps w raw self).2
  = (audit_middleware self ++ [entry])%list →
  ae_correlation_id entry
  = Some (if truthy (default ∅ (rq_headers raw) !! "X-Correlation-ID")
          then default "" (default ∅ (rq_headers raw) !! "X-Correlation-ID")
          else w_uuid_correlation w).
Proof.
  stages; intros Hlog.
  all: first
    [ apply app_inv_head in Hlog; injection Hlog as <-; cbn;
      by repeat match goal with Ht : truthy _ = _ |- _ => rewrite Ht end
    | exfalso; apply (f_equal length) in Hlog; rewrite length_app in Hlog;
      cbn in Hlog; lia ].
Qed.

(** X14: a body that [json.dumps] rejects is detected only by the audit
    stage, after the rate limiter has counted the call: the call returns
    the failure shape for that exception, the limiter keeps its updated
    state, one audit entry with the error's status and the user id is
    appended, and nothing is stored under the idempotency key. *)
Theorem unserialisable_body_fails_after_rate_limit w raw self auth_payload svc rl b e :
  truthy (resolve_organization (default ∅ (rq_headers raw))) = true →
  authenticate_request (auth_middleware self) (default ∅ (rq_headers raw))
  = (Returned (Some auth_payload), svc) →
  is_rate_limited (rate_limit_middleware self) (w_time w)
    (py_str (tp_user_id auth_payload) ++ ":" ++ default "" (rq_ip_address raw))
  = (false, rl) →
  (∀ k, default ∅ (rq_headers raw) !! "Idempotency-Key" = Some k →
        check_idempotency (idempotency_middleware self) k = None) →
  rq_body raw = Some b →
  json_dumps b = Raised e →
  isinstance e "Exception" = true →
  ∃ entry,
    process_request json_dumps w raw self
    = (Returned
         (FailureShape
            (normalize_error (w_uuid_error w) (w_now_error w) e "Request Processing")
            "Request failed middleware processing"),
       set_audit (set_rate_limit (set_auth self svc) rl)
         (audit_middleware self ++ [entry])%list)
    ∧ ae_user_id entry = tp_user_id auth_payload
    ∧ ae_status_code entry
      = status_code
          (normalize_error (w_uuid_error w) (w_now_error w) e "Request Processing").
Proof.
  intros Ht Ha Hr Hmiss Hb Hd He.
  unfold process_request, try_block.
  cbn [rc_headers rc_ip_address build_context]. rewrite Ht, Ha. cbn [negb].
  cbn [set_auth rate_limit_middleware]. rewrite Hr.
  cbn [idempotency_middleware set_rate_limit set_auth audit_middleware].
  assert (Hcache :
    (if truthy (default ∅ (rq_headers raw) !! "Idempotency-Key")
     then check_idempotency (idempotency_middleware self)
            (default "" (default ∅ (rq_headers raw) !! "Idempotency-Key"))
     else None) = None).
  { destruct (default ∅ (rq_headers raw) !! "Idempotency-Key") as [k|] eqn:Hk; [|done].
    cbn [from_option id]. rewrite (Hmiss k eq_refl). by case_match. }
  rewrite Hcache. unfold log_request at 1.
  cbn [rd_body from_option id rc_body build_context]. rewrite Hb.
  cbn [from_option dumps].
  rewrite Hd, He.
  unfold except_handler, log_request.
  cbn [l_auth_payload rd_body from_option id dumps].
  eexists. split_and!; reflexivity.
Qed.

(** X15: an exception raised by [validate_token] that is an instance of
    [Exception] does not escape: the call returns the failure shape with
    that exception normalised, and appends one audit entry that names the
    tenant but no user. The rate limiter and the idempotency store are not
    touched. *)
Theorem auth_service_exception_is_normalised w raw self svc e :
  truthy (resolve_organization (default ∅ (rq_headers raw))) = true →
  authenticate_request (auth_middleware self) (default ∅ (rq_headers raw))
  = (Raised e, svc) →
  isinstance e "Exception" = true →
  ∃ entry,
    process_request json_dumps w raw self
    = (Returned
         (FailureShape
            (normalize_error (w_uuid_error w) (w_now_error w) e "Request Processing")
            "Request failed middleware processing"),
       set_audit (set_auth self svc) (audit_middleware self ++ [entry])%list)
    ∧ ae_user_id entry = None
    ∧ ae_org_id entry = resolve_organization (default ∅ (rq_headers raw))
    ∧ ae_status_code entry
      = status_code
          (normalize_error (w_uuid_error w) (w_now_error w) e "Request Processing").
Proof.
  intros Ht Ha He.
  unfold process_request, try_block.
  cbn [rc_headers build_context]. rewrite Ht, Ha. cbn [negb]. rewrite He.
  unfold except_handler, log_request.
  cbn [l_auth_payload l_org_id rd_body from_option id dumps].
  eexists. split_and!; reflexivity.
Qed.

(** X16: the tenant of a successful request is the [X-Organization-ID]
    header when that header is present and not empty, and the
    [X-Tenant-ID] header otherwise; it is never empty. *)
Theorem success_tenant_precedence w raw self ctx msg :
  (process_request json_dumps w raw self).1 = Returned (SuccessShape ctx msg) →
  ∃ org,
    ec_org_id ctx = Some org ∧ org ≠ ""
    ∧ (default ∅ (rq_headers raw) !! "X-Organization-ID" = Some org
       ∨ (truthy (default ∅ (rq_headers raw) !! "X-Organization-ID") = false
          ∧ default ∅ (rq_headers raw) !! "X-Tenant-ID" = Some org)).
Proof.
  intros H.
  assert (Hctx : ec_org_id ctx = resolve_organization (default ∅ (rq_headers raw))
                 ∧ truthy (resolve_organization (default ∅ (rq_headers raw))) = true).
  { revert H. stages; intros [= <- <-]; cbn; split; try done.
    all: by match goal with H : negb ?b = false |- _ => destruct b end. }
  destruct Hctx as [-> Ht].
  destruct (truthy_Some _ Ht) as (org & Horg & Hne).
  exists org. split_and!; [done..|].
  revert Horg. unfold resolve_organization, _default_org_resolver, py_or.
  destruct (truthy (default ∅ (rq_headers raw) !! "X-Organization-ID")); eauto.
Qed.

End PipelineEffects.

(** ** Permission service *)

Lemma role_permissions_lookup role :
  role_permissions !! role
  = if decide (role = "admin") then Some admin_permissions
    else if decide (role = "instructor") then Some instructor_permissions
    else if decide (role = "learner") then Some learner_permissions
    else None.
Proof.
  unfold role_permissions. cbn [list_to_map foldr uncurry fst snd].
  repeat (case_decide; [subst; by vm_compute|rewrite lookup_insert_ne by done]).
  apply lookup_empty.
Qed.

(** X17: [has_permission] answers [True] only for the roles [admin],
    [instructor] and [learner], and never for the action [EXECUTE]. *)
Theorem permission_only_for_known_roles user_id role action target resource_id org_id :
  has_permission user_id role action target resource_id org_id = Returned true →
  role ∈ ["admin"; "instructor"; "learner"] ∧ action ≠ EXECUTE.
Proof.
  unfold has_permission. rewrite role_permissions_lookup.
  repeat case_decide; subst; [..|done].
  all: intros Hp; split; [set_solver|]; intros ->; by destruct target.
Qed.

Lemma permission_only_for_known_roles_witness :
  "learner" ∈ ["admin"; "instructor"; "learner"] ∧ READ ≠ EXECUTE.
Proof.
  apply (permission_only_for_known_roles "u1" "learner" READ SESSION None None).
  reflexivity.
Defined.

(** X18: whatever [has_permission] grants to an instructor or to a learner
    it grants to an admin, for the same user, action, target, resource and
    organisation. *)
Theorem admin_has_every_permission user_id role action target resource_id org_id :
  has_permission user_id role action target resource_id org_id = Returned true →
  has_permission user_id "admin" action target resource_id org_id = Returned true.
Proof.
  unfold has_permission. rewrite !role_permissions_lookup.
  destruct (decide (role = "admin")) as [->|H1]; [done|].
  destruct (decide (role = "instructor")) as [->|H2];
    [by destruct action, target|].
  destruct (decide (role = "learner")) as [->|H3]; [|done].
  by destruct action, target.
Qed.

Lemma admin_has_every_permission_witness :
  has_permission "u1" "admin" WRITE PROGRESS (Some "user_u1_progress") (Some "org1")
  = Returned true.
Proof.
  apply (admin_has_every_permission "u1" "learner"). reflexivity.
Defined.

Lemma existsb_available (permissions : list permission) action target :
  existsb (λ perm, bool_decide (perm_action perm = action)
                   && bool_decide (perm_target perm = target)) permissions
  = bool_decide
      (action ∈ perm_action
         <$> List.filter (λ perm, bool_decide (perm_target perm = target)) permissions).
Proof.
  induction permissions as [|[a t] rest IH]; [done|].
  cbn [existsb List.filter perm_action perm_target]. rewrite IH.
  destruct (decide (t = target)) as [->|Ht].
  - rewrite (bool_decide_true (target = target)) by done. rewrite andb_true_r.
    cbn [fmap list_fmap perm_action].
    destruct (decide (a = action)) as [->|Ha].
    + rewrite (bool_decide_true (action = action)) by done.
      symmetry. apply bool_decide_true. by left.
    + rewrite (bool_decide_false (a = action)) by done. cbn [orb].
      apply bool_decide_ext. rewrite elem_of_cons.
      split; [by right|]. by intros [->|?].
  - rewrite (bool_decide_false (t = target)) by done. by rewrite andb_false_r.
Qed.

(** X19: [get_available_actions] and [has_permission] agree: except for a
    learner writing progress, where the resource rule decides,
    [has_permission] returns [True] exactly when the action is among the
    actions listed for the role and target. *)
Theorem has_permission_matches_available_actions
    user_id role action target resource_id org_id :
  ¬ (role = "learner" ∧ target = PROGRESS ∧ action = WRITE) →
  has_permission user_id role action target resource_id org_id
  = Returned (bool_decide (action ∈ get_available_actions role target)).
Proof.
  intros Hrule. unfold has_permission, get_available_actions.
  destruct (role_permissions !! role) as [permissions|]; [|done].
  rewrite existsb_available. case_bool_decide; [|done]. cbn [negb].
  unfold _check_resource_specific_rules.
  destruct (String.eqb_spec role "learner") as [->|_]; [|done].
  repeat case_bool_decide; subst; try done. by destruct Hrule.
Qed.

Lemma has_permission_matches_available_actions_witness :
  has_permission "u1" "instructor" DELETE CATEGORY None None
  = Returned (bool_decide (DELETE ∈ get_available_actions "instructor" CATEGORY)).
Proof.
  apply has_permission_matches_available_actions. intros (H & _). discriminate H.
Defined.

(** ** [check_permission] *)

Lemma lower_ascii_idempotent a : lower_ascii (lower_ascii a) = lower_ascii a.
Proof. by destruct a as [[] [] [] [] [] [] [] []]. Qed.

Lemma lower_idempotent s : lower (lower s) = lower s.
Proof.
  induction s as [|a s IH]; [done|]. cbn. by rewrite lower_ascii_idempotent, IH.
Qed.

Lemma action_map_unknown name :
  name ∉ ["read"; "write"; "delete"; "execute"] → action_map !! name = None.
Proof. intros H. by apply not_elem_of_list_to_map_1. Qed.

Lemma resource_map_unknown name :
  name ∉ ["user"; "organization"; "learning_item"; "session"; "progress"; "category"] →
  resource_map !! name = None.
Proof. intros H. by apply not_elem_of_list_to_map_1. Qed.

(** X20: through [check_permission] a learner can never write progress:
    the resource id is not passed on, so the service's own-progress rule
    evaluates [None.startswith] and the call raises [AttributeError],
    whatever the user and organisation. *)
Theorem learner_progress_write_raises user_id action resource org_id :
  lower action = "write" →
  lower resource = "progress" →
  check_permission has_permission user_id "learner" action resource org_id
  = Raised (AttributeError "'NoneType' object has no attribute 'startswith'").
Proof. intros Ha Hr. unfold check_permission. by rewrite Ha, Hr. Qed.

Lemma learner_progress_write_raises_witness :
  check_permission has_permission "u1" "learner" "Write" "PROGRESS" "org1"
  = Raised (AttributeError "'NoneType' object has no attribute 'startswith'").
Proof. apply learner_progress_write_raises; reflexivity. Defined.

(** X21: action and resource names are matched without regard to ASCII
    case, and a name that is not in the table is not rejected: an unknown
    action is checked as [read] and an unknown resource as [user]. With the
    permission service of the platform an admin or instructor is therefore
    granted any unknown action on any unknown resource, and a learner is
    refused. *)
Theorem unknown_names_fall_back (service : permission_checker)
    user_id role action resource org_id :
  check_permission service user_id role action resource org_id
  = check_permission service user_id role (lower action) (lower resource) org_id
  ∧ (lower action ∉ ["read"; "write"; "delete"; "execute"] →
     check_permission service user_id role action resource org_id
     = check_permission service user_id role "read" resource org_id)
  ∧ (lower resource
       ∉ ["user"; "organization"; "learning_item"; "session"; "progress"; "category"] →
     check_permission service user_id role action resource org_id
     = check_permission service user_id role action "user" org_id)
  ∧ (lower action ∉ ["read"; "write"; "delete"; "execute"] →
     lower resource
       ∉ ["user"; "organization"; "learning_item"; "session"; "progress"; "category"] →
     check_permission has_permission user_id role action resource org_id
     = Returned (bool_decide (role ∈ ["admin"; "instructor"]))).
Proof.
  unfold check_permission. split_and!.
  - by rewrite !lower_idempotent.
  - intros Ha. by rewrite (action_map_unknown _ Ha).
  - intros Hr. by rewrite (resource_map_unknown _ Hr).
  - intros Ha Hr. rewrite (action_map_unknown _ Ha), (resource_map_unknown _ Hr).
    cbn [default from_option id]. unfold has_permission.
    rewrite role_permissions_lookup.
    destruct (decide (role = "admin")) as [->|H1]; [done|].
    destruct (decide (role = "instructor")) as [->|H2]; [done|].
    destruct (decide (role = "learner")) as [->|H3]; [done|].
    rewrite bool_decide_false; [done|].
    intros Hin. apply elem_of_cons in Hin as [?|Hin]; [done|].
    apply elem_of_cons in Hin as [?|Hin]; [done|]. by apply elem_of_nil in Hin.
Qed.

Lemma unknown_names_fall_back_witness :
  check_permission has_permission "u1" "instructor" "approve" "invoice" "org1"
  = Returned (bool_decide ("instructor" ∈ ["admin"; "instructor"])).
Proof.
  apply (unknown_names_fall_back has_permission "u1" "instructor" "approve" "invoice" "org1").
  - apply (bool_decide_unpack _). by vm_compute.
  - apply (bool_decide_unpack _). by vm_compute.
Defined.

(** ** AI usage metering *)

Section MeteringFacts.
Context {F : Type}.
Variable fzero : F.
Variable fadd : F → F → F.

#[local] Abbreviation stats_map := (gmap string (gmap string (usage (F := F)))).

Implicit Types (stats : stats_map) (c : usage_call (F := F)).

(** The statistics of every user and model after one recorded call. *)
Lemma usage_of_record created now stats u m i o t u' m' :
  usage_of (record_ai_usage fzero fadd created now stats u m i o t) u' m'
  = if decide (u' = u ∧ m' = m) then
      let old := default (Usage 0 0 0 fzero created) (usage_of stats u m) in
      Some {| requests_count := requests_count old + 1;
              input_tokens_total := input_tokens_total old + i;
              output_tokens_total := output_tokens_total old + o;
              total_processing_time := fadd (total_processing_time old) t;
              last_used := now |}
    else usage_of stats u' m'.
Proof.
  unfold usage_of, record_ai_usage.
  destruct (decide (u' = u)) as [->|Hu].
  - rewrite lookup_insert_eq. cbn [mbind option_bind].
    destruct (decide (m' = m)) as [->|Hm].
    + rewrite lookup_insert_eq. rewrite decide_True by done.
      destruct (stats !! u) as [pm|] eqn:Hs; cbn.
      * rewrite Hs. cbn. destruct (pm !! m) as [s|] eqn:Hpm; cbn.
        -- by rewrite Hpm.
        -- by rewrite lookup_insert_eq.
      * rewrite lookup_insert_eq. cbn. rewrite lookup_empty.
        by rewrite lookup_insert_eq.
    + rewrite lookup_insert_ne by done. rewrite decide_False by (intros [? ?]; done).
      destruct (stats !! u) as [pm|] eqn:Hs; cbn.
      * rewrite Hs. cbn. destruct (pm !! m); [done|]. by rewrite lookup_insert_ne.
      * rewrite lookup_insert_eq. cbn. rewrite lookup_empty.
        rewrite lookup_insert_ne by done. by rewrite lookup_empty.
  - rewrite lookup_insert_ne by done. rewrite decide_False by (intros [? ?]; done).
    destruct (stats !! u) as [pm|] eqn:Hs; [done|].
    by rewrite lookup_insert_ne.
Qed.

Lemma summary_of_model stats u m :
  m ≠ "" →
  get_usage_summary stats u (Some m)
  = from_option ModelUsage NoUsage (usage_of stats u m).
Proof.
  intros Hm. unfold get_usage_summary, usage_of.
  destruct (stats !! u) as [pm|]; [|done]. cbn.
  destruct (String.eqb_spec m ""); [done|]. cbn. by destruct (pm !! m).
Qed.

Lemma calls_of_snoc u m (calls : list usage_call) c :
  calls_of u m (calls ++ [c])
  = (calls_of u m calls
     ++ if String.eqb (uc_user c) u && String.eqb (uc_model c) m then [c] else [])%list.
Proof. unfold calls_of. rewrite List.filter_app. cbn. by case_match. Qed.

Lemma sum_Z_snoc l x : sum_Z (l ++ [x]) = sum_Z l + x.
Proof. unfold sum_Z. induction l as [|y l IH]; cbn; [lia|]. rewrite IH. lia. Qed.

Lemma usage_totals_of calls u m :
  match usage_of (record_all fzero fadd ∅ calls) u m with
  | None => calls_of u m calls = []
  | Some s =>
      calls_of u m calls ≠ []
      ∧ requests_count s = Z.of_nat (length (calls_of u m calls))
      ∧ input_tokens_total s = sum_Z (uc_input <$> calls_of u m calls)
      ∧ output_tokens_total s = sum_Z (uc_output <$> calls_of u m calls)
  end.
Proof.
  induction calls as [|c calls IH] using rev_ind.
  { unfold usage_of. cbn. by rewrite lookup_empty. }
  unfold record_all in *. rewrite foldl_app. cbn [foldl].
  unfold record_call at 1. rewrite usage_of_record, calls_of_snoc.
  destruct (decide (u = uc_user c ∧ m = uc_model c)) as [[-> ->]|Hne].
  - rewrite !String.eqb_refl. cbn [andb].
    destruct (usage_of _ (uc_user c) (uc_model c)) as [s|]; cbn [default from_option id].
    + destruct IH as (Hne & Hc & Hi & Ho). split_and!.
      * by destruct (calls_of _ _ _).
      * cbn. rewrite Hc, length_app. cbn. lia.
      * cbn [input_tokens_total]. rewrite Hi, fmap_app. cbn [fmap list_fmap].
        by rewrite sum_Z_snoc.
      * cbn [output_tokens_total]. rewrite Ho, fmap_app. cbn [fmap list_fmap].
        by rewrite sum_Z_snoc.
    + rewrite IH. cbn. unfold sum_Z. cbn. split_and!; [done|lia..].
  - assert (String.eqb (uc_user c) u && String.eqb (uc_model c) m = false) as ->.
    { apply andb_false_iff.
      destruct (String.eqb_spec (uc_user c) u), (String.eqb_spec (uc_model c) m);
        naive_solver. }
    by rewrite app_nil_r.
Qed.

(** X22: after any sequence of recorded calls on an empty meter, the summary
    of a user and model is empty when no call was for them, and otherwise
    counts exactly their calls and sums exactly their input and output
    tokens. *)
Theorem usage_summary_totals calls u m :
  m ≠ "" →
  match get_usage_summary (record_all fzero fadd ∅ calls) u (Some m) with
  | NoUsage => calls_of u m calls = []
  | ModelUsage s =>
      calls_of u m calls ≠ []
      ∧ requests_count s = Z.of_nat (length (calls_of u m calls))
      ∧ input_tokens_total s = sum_Z (uc_input <$> calls_of u m calls)
      ∧ output_tokens_total s = sum_Z (uc_output <$> calls_of u m calls)
  | UserUsage _ => False
  end.
Proof.
  intros Hm. rewrite (summary_of_model _ _ _ Hm).
  pose proof (usage_totals_of calls u m) as H.
  by destruct (usage_of _ u m).
Qed.

(** X23: recording a call for one user and model changes no other summary:
    every other user's summaries, and the same user's summaries of other
    models, are as before. *)
Theorem record_leaves_other_usage created now stats u m i o t u' :
  (u' ≠ u → ∀ model,
     get_usage_summary (record_ai_usage fzero fadd created now stats u m i o t) u' model
     = get_usage_summary stats u' model)
  ∧ (∀ m', m' ≠ m → m' ≠ "" →
       get_usage_summary (record_ai_usage fzero fadd created now stats u m i o t) u' (Some m')
       = get_usage_summary stats u' (Some m')).
Proof.
  split.
  - intros Hu model. unfold get_usage_summary, record_ai_usage.
    rewrite lookup_insert_ne by done.
    destruct (stats !! u); [done|]. by rewrite lookup_insert_ne.
  - intros m' Hm Hne. rewrite !summary_of_model by done.
    rewrite usage_of_record. by rewrite decide_False by (intros [? ?]; done).
Qed.

End MeteringFacts.

(** ** The decorator *)

Section DecoratorFacts.
Context {Body R : Type}.
Variable json_dumps : Body → outcome string.
Variable func : func_arguments (Body := Body) → outcome R.

Implicit Types (args : arguments (Body := Body)).

(** X24: a request whose idempotency key is already stored never reaches
    the decorated function. Whatever the function is, the wrapper does not
    return a value of it; when the pipeline replays the stored context the
    wrapper fails on [result["success"]] with [KeyError]. *)
Theorem stored_key_never_reaches_function w args processor request k cached :
  selected_request args = Some request →
  request_truthy request = true →
  default ∅ (rq_headers request) !! "Idempotency-Key" = Some k →
  truthy (Some k) = true →
  check_idempotency (idempotency_middleware processor) k = Some cached →
  (∀ r, (wrapper json_dumps func w args processor).1 ≠ Returned (FuncResult r))
  ∧ ((process_request json_dumps w request processor).1 = Returned (Cached cached) →
     (wrapper json_dumps func w args processor).1 = Raised (KeyError "success")).
Proof.
  intros Hsel Ht Hk Hkt Hc. unfold wrapper. rewrite Hsel, Ht.
  unfold process_request.
  destruct (try_block json_dumps w request processor) as [[res|[e locals]] p] eqn:Htry.
  - destruct (try_block_replay json_dumps w request processor k cached res p
                Hk Hkt Hc Htry) as (-> & _). done.
  - destruct (isinstance e "Exception"); [|done].
    destruct (except_handler _ _ _ _ _ _) as [[res|e'] p'] eqn:Hh; [|done].
    apply except_handler_returns in Hh. subst res. done.
Qed.

(** X25: a call without a request, or whose request is an empty dict,
    bypasses the pipeline: the function is called with the arguments as
    given and no enriched context, and the processor is left untouched, so
    nothing is authenticated, rate limited or audited. *)
Theorem empty_request_bypasses_pipeline w args processor :
  (selected_request args = None
   ∨ ∃ request, selected_request args = Some request ∧ request_truthy request = false) →
  wrapper json_dumps func w args processor
  = (call_func func
       (FuncArguments (first_positional args) (Original <$> keyword_request args) None),
     processor).
Proof.
  intros [Hsel|(request & Hsel & Hf)]; unfold wrapper; rewrite Hsel; [done|].
  by rewrite Hf.
Qed.

(** X26: for a non-empty request the wrapper returns a value of the function
    only when the pipeline returned the success shape, and then the
    function received the enriched context as [enriched_context], the
    keyword [request] dict overwritten with the entries of that context
    (also when the request processed was the positional one), and the
    positional request unchanged. The wrapper returns a failure only when
    the pipeline returned that failure. *)
Theorem function_runs_only_after_success w args processor request :
  selected_request args = Some request →
  request_truthy request = true →
  (∀ r,
     (wrapper json_dumps func w args processor).1 = Returned (FuncResult r) →
     ∃ ctx msg,
       (process_request json_dumps w request processor).1
       = Returned (SuccessShape ctx msg)
       ∧ func (FuncArguments (first_positional args)
                 ((λ _, Updated ctx) <$> keyword_request args) (Some ctx))
         = Returned r)
  ∧ (∀ error message,
       (wrapper json_dumps func w args processor).1
       = Returned (ErrorResult error message) →
       (process_request json_dumps w request processor).1
       = Returned (FailureShape error message))
  ∧ (wrapper json_dumps func w args processor).2
    = (process_request json_dumps w request processor).2.
Proof.
  intros Hsel Ht. unfold wrapper, call_func. rewrite Hsel, Ht.
  destruct (process_request json_dumps w request processor) as [[[ctx msg|err m|c]|e] p];
    cbn [fst snd].
  - split_and!; [|by destruct (func _)|done].
    intros r Hr. exists ctx, msg. split; [done|].
    by destruct (func _) as [r'|e']; simplify_eq.
  - split_and!; [done| |done]. by intros ?? [= <- <-].
  - by split_and!.
  - by split_and!.
Qed.

End DecoratorFacts.

(** ** Concrete runs of the further properties *)

Lemma idempotency_store_first_write_kept_witness :
  ∃ ctx,
    idempotency_middleware Sample.first_call.2 !! "k1" = Some ctx
    ∧ idempotency_middleware Sample.second_call.2 !! "k1" = Some ctx.
Proof.
  assert (∃ ctx, idempotency_middleware Sample.first_call.2 !! "k1" = Some ctx)
    as [ctx Hctx].
  { vm_compute. by eexists. }
  exists ctx. split; [exact Hctx|].
  by apply (idempotency_store_first_write_kept Sample.json_dumps (Sample.clock 1)
              (Sample.keyed Sample.PyTrue) Sample.first_call.2).
Defined.

Lemma escaping_exceptions_witness :
  ((authenticate_request (auth_middleware Sample.fresh)
      (default ∅ (rq_headers Sample.no_credentials))).1 = Returned None
   ∧ AttributeError "'NoneType' object has no attribute 'get'"
     = AttributeError "'NoneType' object has no attribute 'get'")
  ∨ (isinstance (AttributeError "'NoneType' object has no attribute 'get'") "Exception"
     = false
     ∧ ((authenticate_request (auth_middleware Sample.fresh)
           (default ∅ (rq_headers Sample.no_credentials))).1
        = Raised (AttributeError "'NoneType' object has no attribute 'get'")
        ∨ ∃ b, rq_body Sample.no_credentials = Some b
               ∧ Sample.json_dumps b
                 = Raised (AttributeError "'NoneType' object has no attribute 'get'"))).
Proof.
  apply (escaping_exceptions Sample.json_dumps (Sample.clock 0)
           Sample.no_credentials Sample.fresh).
  by vm_compute.
Defined.

Lemma failure_audited_with_its_status_witness :
  ∃ entry,
    audit_middleware
      (process_request Sample.json_dumps (Sample.clock 0) Sample.no_tenant Sample.fresh).2
    = [entry]
    ∧ ae_status_code entry = 400
    ∧ ae_request_size entry = 2%nat.
Proof.
  assert (∃ err msg,
            (process_request Sample.json_dumps (Sample.clock 0) Sample.no_tenant
               Sample.fresh).1 = Returned (FailureShape err msg)
            ∧ status_code err = 400) as (err & msg & Hrun & Hcode).
  { vm_compute. by eexists _, _. }
  destruct (failure_audited_with_its_status Sample.json_dumps (Sample.clock 0)
              Sample.no_tenant Sample.fresh err msg Hrun)
    as (_ & _ & entry & Hlog & Hstatus & Hsize).
  exists entry. rewrite Hlog, Hstatus, Hcode. done.
Defined.

Lemma success_audited_once_witness :
  ∃ entry,
    audit_middleware
      (process_request Sample.json_dumps (Sample.clock 0) Sample.plain Sample.fresh).2
    = [entry]
    ∧ ae_status_code entry = 200
    ∧ ae_request_size entry = 2%nat.
Proof.
  assert (∃ ctx msg,
            (process_request Sample.json_dumps (Sample.clock 0) Sample.plain
               Sample.fresh).1 = Returned (SuccessShape ctx msg)
            ∧ rc_body (ec_request ctx) = EmptyDict) as (ctx & msg & Hrun & Hbody).
  { vm_compute. by eexists _, _. }
  destruct (success_audited_once Sample.json_dumps (Sample.clock 0)
              Sample.plain Sample.fresh ctx msg Hrun)
    as (_ & _ & _ & entry & dumped & Hlog & Hstatus & _ & _ & _ & _ & Hd & Hsize).
  exists entry. rewrite Hlog, Hstatus, Hsize. rewrite Hbody in Hd.
  injection Hd as <-. done.
Defined.

Lemma replay_is_rate_limited_not_audited_witness :
  audit_middleware Sample.second_call.2 = audit_middleware Sample.first_call.2
  ∧ bucket (rate_limit_middleware Sample.second_call.2) "u1:1.2.3.4" = Some (2, 1%Q).
Proof.
  assert (∃ cached, Sample.second_call.1 = Returned (Cached cached)) as [cached Hrun].
  { vm_compute. by eexists. }
  destruct (replay_is_rate_limited_not_audited Sample.json_dumps (Sample.clock 1)
              (Sample.keyed Sample.PyTrue) Sample.first_call.2 cached Hrun)
    as (k & p & svc & rl & _ & _ & _ & _ & _ & Hlog & _).
  split; [exact Hlog|]. by vm_compute.
Defined.

Lemma audit_entry_correlation_id_witness :
  ∃ entry,
    Demo.last_entry
      (audit_middleware
         (process_request Sample.json_dumps (Sample.clock 0) Demo.traced Sample.fresh).2)
    = Some entry
    ∧ ae_correlation_id entry = Some "trace-1".
Proof.
  assert (∃ entry,
            audit_middleware
              (process_request Sample.json_dumps (Sample.clock 0) Demo.traced
                 Sample.fresh).2
            = (audit_middleware Sample.fresh ++ [entry])%list) as [entry Hlog].
  { vm_compute. by eexists. }
  exists entry. split; [by rewrite Hlog|].
  by rewrite (audit_entry_correlation_id Sample.json_dumps (Sample.clock 0)
                Demo.traced Sample.fresh entry Hlog).
Defined.

Lemma unserialisable_body_fails_after_rate_limit_witness :
  ∃ err msg,
    (process_request Sample.json_dumps (Sample.clock 0) Demo.binary_body Sample.fresh).1
    = Returned (FailureShape err msg)
    ∧ status_code err = 500
    ∧ bucket
        (rate_limit_middleware
           (process_request Sample.json_dumps (Sample.clock 0) Demo.binary_body
              Sample.fresh).2) "u1:1.2.3.4"
      = Some (1, 0%Q).
Proof.
  destruct (unserialisable_body_fails_after_rate_limit Sample.json_dumps
              (Sample.clock 0) Demo.binary_body Sample.fresh Sample.learner
              (authenticate_request (auth_middleware Sample.fresh)
                 (default ∅ (rq_headers Demo.binary_body))).2
              (is_rate_limited (rate_limit_middleware Sample.fresh) 0
                 "u1:1.2.3.4").2
              Sample.PyBytes
              (Exn "TypeError" ["Exception"; "BaseException"; "object"]
                 ["Object of type bytes is not JSON serializable"]
                 "Object of type bytes is not JSON serializable"))
    as (entry & Hrun & _ & _).
  - by vm_compute.
  - by vm_compute.
  - by vm_compute.
  - intros k Hk. vm_compute in Hk. discriminate Hk.
  - reflexivity.
  - reflexivity.
  - reflexivity.
  - rewrite Hrun. eexists _, _. split; [reflexivity|]. by vm_compute.
Defined.

Lemma auth_service_exception_is_normalised_witness :
  ∃ err msg,
    (process_request Sample.json_dumps (Sample.clock 0) Sample.plain
       (new_processor Demo.failing_service)).1
    = Returned (FailureShape err msg)
    ∧ category err = "validation_error" ∧ status_code err = 400.
Proof.
  destruct (auth_service_exception_is_normalised Sample.json_dumps (Sample.clock 0)
              Sample.plain (new_processor Demo.failing_service)
              (authenticate_request Demo.failing_service
                 (default ∅ (rq_headers Sample.plain))).2
              (Exn "ValueError" ["Exception"; "BaseException"; "object"]
                 ["Invalid header padding"] "Invalid header padding"))
    as (entry & Hrun & _).
  - by vm_compute.
  - by vm_compute.
  - reflexivity.
  - rewrite Hrun. eexists _, _. split; [reflexivity|]. by vm_compute.
Defined.

Lemma success_tenant_precedence_witness :
  ∃ ctx msg,
    (process_request Sample.json_dumps (Sample.clock 0) Demo.alias_tenant Sample.fresh).1
    = Returned (SuccessShape ctx msg)
    ∧ ec_org_id ctx = Some "org2".
Proof.
  assert (∃ ctx msg,
            (process_request Sample.json_dumps (Sample.clock 0) Demo.alias_tenant
               Sample.fresh).1 = Returned (SuccessShape ctx msg))
    as (ctx & msg & Hrun).
  { vm_compute. by eexists _, _. }
  exists ctx, msg. split; [exact Hrun|].
  destruct (success_tenant_precedence Sample.json_dumps (Sample.clock 0)
              Demo.alias_tenant Sample.fresh ctx msg Hrun)
    as (org & -> & Hne & [Hp|[_ Ha]]).
  - vm_compute in Hp. injection Hp as <-. by destruct Hne.
  - vm_compute in Ha. by injection Ha as <-.
Defined.

Lemma usage_summary_totals_witness :
  ∃ s,
    get_usage_summary (record_all 0 Z.add ∅ Demo.metered) "u1" (Some "mistral")
    = ModelUsage s
    ∧ requests_count s = 2 ∧ input_tokens_total s = 17 ∧ output_tokens_total s = 21.
Proof.
  pose proof (usage_summary_totals 0 Z.add Demo.metered "u1" "mistral") as H.
  destruct (get_usage_summary _ _ _) as [|s|per_model].
  - exfalso. specialize (H ltac:(done)). vm_compute in H. discriminate H.
  - destruct H as (_ & Hc & Hi & Ho); [done|].
    exists s. rewrite Hc, Hi, Ho. by vm_compute.
  - by destruct H.
Defined.

Lemma record_leaves_other_usage_witness :
  get_usage_summary
    (record_ai_usage 0 Z.add 8 9 (record_all 0 Z.add ∅ Demo.metered)
       "u1" "mistral" 1 1 5) "u2" None
  = get_usage_summary (record_all 0 Z.add ∅ Demo.metered) "u2" None
  ∧ get_usage_summary
      (record_ai_usage 0 Z.add 8 9 (record_all 0 Z.add ∅ Demo.metered)
         "u1" "mistral" 1 1 5) "u1" (Some "llama")
    = get_usage_summary (record_all 0 Z.add ∅ Demo.metered) "u1" (Some "llama").
Proof.
  split.
  - by apply (record_leaves_other_usage 0 Z.add 8 9 _ "u1" "mistral" 1 1 5 "u2").
  - by apply (record_leaves_other_usage 0 Z.add 8 9 _ "u1" "mistral" 1 1 5 "u1").
Defined.

Lemma stored_key_never_reaches_function_witness :
  (wrapper Sample.json_dumps Demo.handler (Sample.clock 1)
     (Arguments None (Some (Sample.keyed Sample.PyTrue))) Sample.first_call.2).1
  = Raised (KeyError "success").
Proof.
  assert (∃ cached,
            check_idempotency (idempotency_middleware Sample.first_call.2) "k1"
            = Some cached
            ∧ Sample.second_call.1 = Returned (Cached cached)) as (cached & Hc & Hrun).
  { vm_compute. by eexists. }
  by apply (stored_key_never_reaches_function Sample.json_dumps Demo.handler
              (Sample.clock 1) (Arguments None (Some (Sample.keyed Sample.PyTrue)))
              Sample.first_call.2 (Sample.keyed Sample.PyTrue) "k1" cached).
Defined.

Lemma empty_request_bypasses_pipeline_witness :
  wrapper Sample.json_dumps Demo.handler (Sample.clock 0)
    (Arguments None (Some Demo.empty_request)) Sample.fresh
  = (Returned (FuncResult "anonymous"), Sample.fresh).
Proof.
  rewrite (empty_request_bypasses_pipeline Sample.json_dumps Demo.handler).
  - reflexivity.
  - by left.
Defined.

Lemma function_runs_only_after_success_witness :
  ∃ ctx msg,
    (process_request Sample.json_dumps (Sample.clock 0) Sample.plain Sample.fresh).1
    = Returned (SuccessShape ctx msg)
    ∧ Demo.handler (FuncArguments (Some Sample.plain) None (Some ctx)) = Returned "u1".
Proof.
  destruct (function_runs_only_after_success Sample.json_dumps Demo.handler
              (Sample.clock 0) (Arguments (Some Sample.plain) None) Sample.fresh
              Sample.plain) as (Hrun & _); [reflexivity..|].
  apply (Hrun "u1"). by vm_compute.
Defined.
